(** * Verification of the GitHub-OAuth broker of mcp-limitless
    (src/github-oauth-index.ts: [authorizationHandler.fetch] and the default
    [fetch] export).

    The Workers KV namespace [OAUTH_KV] is modelled as one typed finite map
    per key prefix ([github_state:], [auth_code:], [access_token:],
    [client:]): the prefixes are pairwise distinct and every prefix is only
    ever written with one JSON shape, so this partition is exact.  Every KV
    operation is also appended to a log, so that "no store write" and
    "exactly one store write" are statements about the log. *)

From Stdlib Require Import ZArith List Lia.
From Stdlib Require Import Strings.String Strings.Ascii.
From stdpp Require Import base gmap strings pretty.
Import ListNotations.

Open Scope Z_scope.

(* ------------------------------------------------------------------ *)
(** ** SHA-256 ([crypto.subtle.digest('SHA-256', ...)]), FIPS 180-4 *)

Module Sha256.

Definition mask32 (x : Z) : Z := Z.land x (Z.ones 32).
Definition add32 (x y : Z) : Z := mask32 (x + y).
Definition rotr (x : Z) (n : Z) : Z :=
  mask32 (Z.lor (Z.shiftr x n) (Z.shiftl x (32 - n))).
Definition lnot32 (x : Z) : Z := Z.lxor x (Z.ones 32).

Definition ch (x y z : Z) : Z := Z.lxor (Z.land x y) (Z.land (lnot32 x) z).
Definition maj (x y z : Z) : Z :=
  Z.lxor (Z.lxor (Z.land x y) (Z.land x z)) (Z.land y z).
Definition bsig0 (x : Z) : Z := Z.lxor (Z.lxor (rotr x 2) (rotr x 13)) (rotr x 22).
Definition bsig1 (x : Z) : Z := Z.lxor (Z.lxor (rotr x 6) (rotr x 11)) (rotr x 25).
Definition ssig0 (x : Z) : Z := Z.lxor (Z.lxor (rotr x 7) (rotr x 18)) (Z.shiftr x 3).
Definition ssig1 (x : Z) : Z := Z.lxor (Z.lxor (rotr x 17) (rotr x 19)) (Z.shiftr x 10).

(** The constants, as FIPS 180-4 (4.2.2, 5.3.3) defines them: the first 32
    bits of the fractional parts of the cube roots of the first 64 primes
    ([K]) and of the square roots of the first 8 primes ([H0]). *)
Definition is_prime (n : Z) : bool :=
  forallb (fun d => negb (Z.eqb (n mod d) 0))
    (map Z.of_nat (seq 2 (Z.to_nat n - 2))).

Definition first_primes (k : nat) : list Z :=
  firstn k (filter is_prime (map Z.of_nat (seq 2 400))).

(** integer cube root by bisection, for [lo^3 <= n < hi^3] *)
Fixpoint icbrt_aux (fuel : nat) (lo hi n : Z) : Z :=
  match fuel with
  | O => lo
  | S f =>
      if hi - lo <=? 1 then lo
      else let mid := (lo + hi) / 2 in
           if mid * mid * mid <=? n then icbrt_aux f mid hi n else icbrt_aux f lo mid n
  end.

Definition icbrt (n : Z) : Z := icbrt_aux 64 0 (2 ^ 40) n.

Definition K : list Z :=
  map (fun p => mask32 (icbrt (p * 2 ^ 96))) (first_primes 64).

Definition H0 : list Z :=
  map (fun p => mask32 (Z.sqrt (p * 2 ^ 64))) (first_primes 8).

(** big-endian 32-bit words of a 64-byte block *)
Fixpoint be_words (bs : list Z) : list Z :=
  match bs with
  | b0 :: b1 :: b2 :: b3 :: rest =>
      (b0 * 16777216 + b1 * 65536 + b2 * 256 + b3) :: be_words rest
  | _ => []
  end.

Definition nthZ (l : list Z) (i : nat) : Z := nth i l 0.

(** message schedule W[0..63], built by appending one word at a time *)
Fixpoint schedule (fuel : nat) (w : list Z) : list Z :=
  match fuel with
  | O => w
  | S f =>
      let t := length w in
      let wt := add32 (add32 (ssig1 (nthZ w (t - 2))) (nthZ w (t - 7)))
                      (add32 (ssig0 (nthZ w (t - 15))) (nthZ w (t - 16))) in
      schedule f (w ++ [wt])
  end.

Definition round (st : list Z) (kw : Z * Z) : list Z :=
  match st with
  | [a; b; c; d; e; f; g; h] =>
      let t1 := add32 (add32 (add32 h (bsig1 e)) (add32 (ch e f g) (fst kw))) (snd kw) in
      let t2 := add32 (bsig0 a) (maj a b c) in
      [add32 t1 t2; a; b; c; add32 d t1; e; f; g]
  | _ => st
  end.

Definition compress (hs : list Z) (block : list Z) : list Z :=
  let w := schedule 48 (be_words block) in
  let st := fold_left round (combine K w) hs in
  map (fun p => add32 (fst p) (snd p)) (combine hs st).

Fixpoint blocks (fuel : nat) (bs : list Z) : list (list Z) :=
  match fuel with
  | O => []
  | S f =>
      match bs with
      | [] => []
      | _ => firstn 64 bs :: blocks f (skipn 64 bs)
      end
  end.

Definition be_bytes (n : nat) (x : Z) : list Z :=
  map (fun i => Z.land (Z.shiftr x (8 * Z.of_nat (n - 1 - i))) 255) (seq 0 n).

Definition pad (msg : list Z) : list Z :=
  let len := length msg in
  let zeros := ((119 - (len mod 64)) mod 64)%nat in
  msg ++ [128] ++ repeat 0 zeros ++ be_bytes 8 (8 * Z.of_nat len).

Definition digest (msg : list Z) : list Z :=
  let p := pad msg in
  flat_map (be_bytes 4) (fold_left compress (blocks (length p) p) H0).

End Sha256.

(* ------------------------------------------------------------------ *)
(** ** PKCE challenge computation of the [/token] handler

<<
const data = encoder.encode(codeVerifier);          // TextEncoder, UTF-8
const hash = await crypto.subtle.digest('SHA-256', data);
const base64 = btoa(String.fromCharCode(...new Uint8Array(hash)))
  .replace(/\+/g, '-').replace(/\//g, '_').replace(/=/g, '');
>>
    Strings are Rocq strings of 8-bit characters, i.e. JS strings whose code
    units are below 256. *)

Module Pkce.

Local Open Scope string_scope.

(** [TextEncoder.encode] on code units below 256 *)
Fixpoint utf8_encode (s : string) : list Z :=
  match s with
  | EmptyString => []
  | String c r =>
      let n := Z.of_nat (nat_of_ascii c) in
      app (if Z.ltb n 128 then [n]
           else [Z.lor 192 (Z.shiftr n 6); Z.lor 128 (Z.land n 63)]) (utf8_encode r)
  end.

Definition std_alphabet : string :=
  "ABCDEFGHIJKLMNOPQRSTUVWXYZabcdefghijklmnopqrstuvwxyz0123456789+/".

(** character [i] of an alphabet ([A] outside 0..63, which the 6-bit
    indices below never reach) *)
Definition alpha_char (alphabet : string) (i : Z) : ascii :=
  nth (Z.to_nat i) (list_ascii_of_string alphabet) "A"%char.

Definition idx1 (a : Z) : Z := Z.shiftr a 2.
Definition idx2 (a b : Z) : Z := Z.lor (Z.shiftl (Z.land a 3) 4) (Z.shiftr b 4).
Definition idx3 (b c : Z) : Z := Z.lor (Z.shiftl (Z.land b 15) 2) (Z.shiftr c 6).
Definition idx4 (c : Z) : Z := Z.land c 63.

(** [btoa(String.fromCharCode(...bytes))]: standard base64 with padding *)
Fixpoint btoa (bs : list Z) : string :=
  let e := alpha_char std_alphabet in
  match bs with
  | a :: b :: c :: r =>
      String (e (idx1 a)) (String (e (idx2 a b))
        (String (e (idx3 b c)) (String (e (idx4 c)) (btoa r))))
  | [a; b] =>
      String (e (idx1 a)) (String (e (idx2 a b))
        (String (e (idx3 b 0)) (String "=" EmptyString)))
  | [a] =>
      String (e (idx1 a)) (String (e (idx2 a 0))
        (String "=" (String "=" EmptyString)))
  | [] => EmptyString
  end.

(** [s.replace(/c/g, d)] for a one-character pattern [c] *)
Fixpoint replace_all (c : ascii) (d : string) (s : string) : string :=
  match s with
  | EmptyString => EmptyString
  | String x r =>
      if Ascii.eqb x c then d ++ replace_all c d r else String x (replace_all c d r)
  end.

(** [.replace(/\+/g, '-').replace(/\//g, '_').replace(/=/g, '')] *)
Definition url_safe (s : string) : string :=
  replace_all "=" "" (replace_all "/" "_" (replace_all "+" "-" s)).

Definition pkce_challenge (verifier : string) : string :=
  url_safe (btoa (Sha256.digest (utf8_encode verifier))).

(** The spec's wording, for comparison: base64url (RFC 4648 section 5)
    without padding. *)
Definition url_alphabet : string :=
  "ABCDEFGHIJKLMNOPQRSTUVWXYZabcdefghijklmnopqrstuvwxyz0123456789-_".

Fixpoint base64url_nopad (bs : list Z) : string :=
  let e := alpha_char url_alphabet in
  match bs with
  | a :: b :: c :: r =>
      String (e (idx1 a)) (String (e (idx2 a b))
        (String (e (idx3 b c)) (String (e (idx4 c)) (base64url_nopad r))))
  | [a; b] => String (e (idx1 a)) (String (e (idx2 a b)) (String (e (idx3 b 0)) EmptyString))
  | [a] => String (e (idx1 a)) (String (e (idx2 a 0)) EmptyString)
  | [] => EmptyString
  end.

Definition spec_challenge (verifier : string) : string :=
  base64url_nopad (Sha256.digest (utf8_encode verifier)).

End Pkce.

(* ------------------------------------------------------------------ *)
(** ** Data model *)

Module Broker.

Local Open Scope string_scope.

#[local] Set Warnings "-register-all".

(** JSON values, as produced by [request.json()] *)
Inductive Json : Type :=
| JNull
| JBool (b : bool)
| JNum (n : Z)
| JStr (s : string)
| JArr (l : list Json)
| JObj (fields : list (string * Json)).

(** JS truthiness of a value read from a query string, a form or a stored
    JSON field: [null]/[undefined] ([None]) and [""] are falsy. *)
Definition truthy (v : option string) : bool :=
  match v with
  | Some s => negb (String.eqb s "")
  | None => false
  end.

Definition json_truthy (j : Json) : bool :=
  match j with
  | JNull => false
  | JBool b => b
  | JNum n => negb (Z.eqb n 0)
  | JStr s => negb (String.eqb s "")
  | _ => true
  end.

(** [URLSearchParams.get]: first value under the name *)
Fixpoint param_get (ps : list (string * string)) (k : string) : option string :=
  match ps with
  | [] => None
  | (k', v) :: r => if String.eqb k' k then Some v else param_get r k
  end.

(** [URLSearchParams.set]: the first entry under the name takes the value,
    the later ones are removed; appended when there is none *)
Fixpoint param_set_aux (ps : list (string * string)) (k v : string) (found : bool)
  : list (string * string) :=
  match ps with
  | [] => if found then [] else [(k, v)]
  | (k', v') :: r =>
      if String.eqb k' k then
        if found then param_set_aux r k v true else (k, v) :: param_set_aux r k v true
      else (k', v') :: param_set_aux r k v found
  end.

Definition param_set (ps : list (string * string)) (k v : string) :=
  param_set_aux ps k v false.

(** *** URLs

    A parsed URL, as the WHATWG URL parser of the runtime returns it:
    everything before the query (scheme, authority and path), the query
    parameters as [url.searchParams] lists them (names and values decoded),
    and the fragment.  The parser itself belongs to the runtime, not to the
    handler: it is a field of [Env] below. *)
Record URL : Type := mkURL {
  url_base : string;
  url_params : list (string * string);
  url_hash : string
}.

Definition url_set (u : URL) (k v : string) : URL :=
  mkURL (url_base u) (param_set (url_params u) k v) (url_hash u).

Definition url_get (u : URL) (k : string) : option string :=
  param_get (url_params u) k.

(** *** Object literals with spread: [{ ...a, k: v }].  Setting an existing
    key overwrites it in place; a new key is appended. *)
Fixpoint obj_set (o : list (string * Json)) (k : string) (v : Json)
  : list (string * Json) :=
  match o with
  | [] => [(k, v)]
  | (k', v') :: r => if String.eqb k' k then (k, v) :: r else (k', v') :: obj_set r k v
  end.

Fixpoint obj_get (o : list (string * Json)) (k : string) : option Json :=
  match o with
  | [] => None
  | (k', v) :: r => if String.eqb k' k then Some v else obj_get r k
  end.

(** [{ ...o, ...body }]: an object spreads its own fields, an array or a
    string its indices, any other value nothing *)
Definition spread (o : list (string * Json)) (body : Json) : list (string * Json) :=
  match body with
  | JObj fs => fold_left (fun acc kv => obj_set acc (fst kv) (snd kv)) fs o
  | JArr l =>
      fold_left (fun acc iv => obj_set acc (pretty (fst iv)) (snd iv))
        (combine (seq 0 (length l)) l) o
  | JStr s =>
      fold_left (fun acc ic => obj_set acc (pretty (fst ic)) (JStr (String (snd ic) EmptyString)))
        (combine (seq 0 (String.length s)) (list_ascii_of_string s)) o
  | _ => o
  end.

(** *** Stored entities *)

(** [oauth_params] of a pending session (fallback path); every field is
    what [url.searchParams.get] returned, [null] being [None] *)
Record OAuthParams : Type := mkOAuthParams {
  op_response_type : option string;
  op_client_id : option string;
  op_redirect_uri : option string;
  op_code_challenge : option string;
  op_code_challenge_method : option string;
  op_state : option string;
  op_scope : option string
}.

(** value under [github_state:<id>] *)
Record PendingSession : Type := mkPendingSession {
  ps_oauth_request : option Json;
  ps_oauth_params : option OAuthParams;
  ps_created_at : Z
}.

(** value under [auth_code:<code>] *)
Record AuthCode : Type := mkAuthCode {
  ac_client_id : option string;
  ac_redirect_uri : option string;
  ac_code_challenge : option string;
  ac_code_challenge_method : option string;
  ac_github_code : string;
  ac_user_id : string;
  ac_created_at : Z
}.

(** value under [access_token:<token>] *)
Record TokenInfo : Type := mkTokenInfo {
  ti_user_id : string;
  ti_client_id : option string;
  ti_github_code : string;
  ti_created_at : Z
}.

(** [OAUTH_KV], one map per key prefix; each entry keeps its
    [expirationTtl] (expiry itself is the store's business: an expired
    entry is simply absent). *)
Record KV : Type := mkKV {
  kv_states : gmap string (PendingSession * Z);
  kv_codes : gmap string (AuthCode * Z);
  kv_tokens : gmap string (TokenInfo * Z);
  kv_clients : gmap string (list (string * Json) * Z)
}.

Inductive KVOp : Type :=
| OGet (key : string)
| OPut (key : string) (ttl : Z)
| ODelete (key : string).

Definition is_write (o : KVOp) : bool :=
  match o with OGet _ => false | _ => true end.

(** [RATE_LIMIT_KV]: counter and window start per client address *)
Abbreviation RLStore := (gmap string (Z * Z)).

Record State : Type := mkState {
  st_kv : KV;
  st_log : list KVOp;
  st_rl : RLStore;
  st_rng : nat -> string;   (** the values [crypto.randomUUID()] returns, in order *)
  st_next : nat             (** how many it returned so far *)
}.

(** *** A state monad for the handlers' [await]s on the store *)

Definition M (A : Type) : Type := State -> A * State.

Definition ret {A} (x : A) : M A := fun s => (x, s).
Definition bind {A B} (m : M A) (f : A -> M B) : M B :=
  fun s => let (a, s') := m s in f a s'.

Notation "'let*' x ':=' m 'in' k" := (bind m (fun x => k))
  (at level 200, x name, m at level 100, k at level 200).

Definition with_kv (kv : KV) (s : State) : State :=
  mkState kv (st_log s) (st_rl s) (st_rng s) (st_next s).
Definition log_op (o : KVOp) (s : State) : State :=
  mkState (st_kv s) (st_log s ++ [o]) (st_rl s) (st_rng s) (st_next s).

Definition randomUUID : M string :=
  fun s => (st_rng s (st_next s), mkState (st_kv s) (st_log s) (st_rl s) (st_rng s) (S (st_next s))).

Definition set_states kv m := mkKV m (kv_codes kv) (kv_tokens kv) (kv_clients kv).
Definition set_codes kv m := mkKV (kv_states kv) m (kv_tokens kv) (kv_clients kv).
Definition set_tokens kv m := mkKV (kv_states kv) (kv_codes kv) m (kv_clients kv).
Definition set_clients kv m := mkKV (kv_states kv) (kv_codes kv) (kv_tokens kv) m.

(** [KV.get], [KV.put] and [KV.delete] on one prefix of the namespace *)
Section KvOps.
Context {V : Type} (prefix : string) (sel : KV -> gmap string (V * Z))
        (upd : KV -> gmap string (V * Z) -> KV).

Definition kv_get (id : string) : M (option V) :=
  fun s => (fst <$> sel (st_kv s) !! id, log_op (OGet (prefix ++ id)) s).

Definition kv_put (id : string) (v : V) (ttl : Z) : M unit :=
  fun s => (tt, log_op (OPut (prefix ++ id) ttl)
                  (with_kv (upd (st_kv s) (<[id := (v, ttl)]> (sel (st_kv s)))) s)).

Definition kv_delete (id : string) : M unit :=
  fun s => (tt, log_op (ODelete (prefix ++ id))
                  (with_kv (upd (st_kv s) (delete id (sel (st_kv s)))) s)).
End KvOps.

Definition get_session := kv_get "github_state:" kv_states.
Definition put_session := kv_put "github_state:" kv_states set_states.
Definition delete_session := kv_delete "github_state:" kv_states set_states.
Definition get_code := kv_get "auth_code:" kv_codes.
Definition put_code := kv_put "auth_code:" kv_codes set_codes.
Definition delete_code := kv_delete "auth_code:" kv_codes set_codes.
Definition get_token := kv_get "access_token:" kv_tokens.
Definition put_token := kv_put "access_token:" kv_tokens set_tokens.
Definition put_client := kv_put "client:" kv_clients set_clients.

(** *** Requests, environment, responses *)

Record Request : Type := mkRequest {
  req_method : string;
  req_origin : string;                          (** [url.origin] *)
  req_path : string;                            (** [url.pathname] *)
  req_query : list (string * string);           (** [url.searchParams] *)
  req_headers : list (string * string);
  req_form : option (list (string * string));   (** [request.formData()]; [None]: it rejects *)
  req_json : option Json;                       (** [request.json()]; [None]: it rejects *)
  req_now : Z                                   (** [Date.now()] *)
}.

(** [env.OAUTH_PROVIDER] when it is bound: its two helpers, each either
    throwing with a message ([inl]) or returning ([inr]) *)
Record Provider : Type := mkProvider {
  parseAuthRequest : Request -> string + Json;
  (** [completeAuthorization({request, userId, ...})] -> [redirectTo] *)
  completeAuthorization : Json -> string -> string + string
}.

Record Env : Type := mkEnv {
  OAUTH_PROVIDER : option Provider;
  GITHUB_CLIENT_ID : string;
  RATE_LIMIT_KV : bool;                 (** whether the binding is present *)
  ENABLE_IP_ALLOWLIST : option string;
  (** the runtime's URL parser, as [new URL(s)] and [Response.redirect(s)]
      use it: [None] when it throws.  It is not part of the handler and is
      kept arbitrary, so that what is proved holds for the parser the
      runtime has. *)
  parseURL : string -> option URL
}.

(** Modelled from the spec: [./security-middleware] ([validateAnthropicOrigin],
    [rateLimitCheck], [createSecurityHeaders]) is imported by the handler but
    is not among the sources.  The spec describes them as an allow-list
    check on the caller's address and a counter kept in [RATE_LIMIT_KV];
    they are kept as arbitrary functions of that shape, so that what is
    proved holds whatever they compute. *)
Record Middleware : Type := mkMiddleware {
  validateAnthropicOrigin : Request -> bool;
  rateLimitCheck : Request -> RLStore -> bool * RLStore;
  createSecurityHeaders : list (string * string)
}.

Inductive Body : Type :=
| BText (s : string)
| BJson (fields : list (string * Json))
| BNone.

Record Response : Type := mkResponse {
  status : Z;
  headers : list (string * string);
  body : Body;
  location : option URL         (** the [Location] header of a redirect *)
}.

(** [ctx.props] handed to the MCP agent *)
Record Props : Type := mkProps {
  pr_authenticated : bool;
  pr_user_id : string;
  pr_client_id : option string
}.

Inductive Outcome : Type :=
| Resp (r : Response)
| Forward (props : Props)       (** [mcpHandlers.fetch(request, env, ctx)] *)
| Thrown (msg : string).        (** an exception escaping the handler *)

Definition text_resp (st : Z) (t : string) : Outcome :=
  Resp (mkResponse st [] (BText t) None).
Definition json_resp (st : Z) (fs : list (string * Json)) : Outcome :=
  Resp (mkResponse st [("Content-Type", "application/json")] (BJson fs) None).
(** [Response.redirect(url, 302)]; where the handler passes
    [u.toString()] for a URL object [u], the runtime parses that
    serialization back to [u] *)
Definition redirect (u : URL) : Outcome :=
  Resp (mkResponse 302 [] BNone (Some u)).

Definition query_get (r : Request) (k : string) : option string :=
  param_get (req_query r) k.

Definition ascii_lower (c : ascii) : ascii :=
  let n := nat_of_ascii c in
  if ((65 <=? n) && (n <=? 90))%nat then ascii_of_nat (n + 32) else c.

Fixpoint lower (s : string) : string :=
  match s with
  | EmptyString => EmptyString
  | String c r => String (ascii_lower c) (lower r)
  end.

(** [request.headers.get(name)]: header names are case-insensitive *)
Fixpoint header_get (hs : list (string * string)) (k : string) : option string :=
  match hs with
  | [] => None
  | (k', v) :: r => if String.eqb (lower k') (lower k) then Some v else header_get r k
  end.

Definition GITHUB_AUTH_URL : URL := mkURL "https://github.com/login/oauth/authorize" [] "".

Definition github_redirect (env : Env) (r : Request) (githubState : string) : Outcome :=
  let u := url_set GITHUB_AUTH_URL "client_id" (GITHUB_CLIENT_ID env) in
  let u := url_set u "redirect_uri" (req_origin r ++ "/github/callback") in
  let u := url_set u "scope" "user:email" in
  let u := url_set u "state" githubState in
  redirect u.

(* ------------------------------------------------------------------ *)
(** ** [authorizationHandler.fetch] *)

(** [/authorize] *)
Definition authorize (env : Env) (r : Request) : M Outcome :=
  match OAUTH_PROVIDER env with
  | None =>
      (* Fallback: manually parse OAuth parameters *)
      let responseType := query_get r "response_type" in
      let clientId := query_get r "client_id" in
      let redirectUri := query_get r "redirect_uri" in
      let codeChallenge := query_get r "code_challenge" in
      let codeChallengeMethod := query_get r "code_challenge_method" in
      let state := query_get r "state" in
      let scope := query_get r "scope" in
      if negb (truthy responseType) || negb (truthy clientId) || negb (truthy redirectUri)
      then ret (text_resp 400 "Missing required OAuth parameters")
      else
        let* githubState := randomUUID in
        let* _ := put_session githubState
                    (mkPendingSession None
                       (Some (mkOAuthParams responseType clientId redirectUri codeChallenge
                                codeChallengeMethod state scope))
                       (req_now r)) 3600 in
        ret (github_redirect env r githubState)
  | Some p =>
      match parseAuthRequest p r with
      | inl msg => ret (text_resp 500 ("Error: " ++ msg))
      | inr oauthReqInfo =>
          if String.eqb (GITHUB_CLIENT_ID env) "" then
            ret (text_resp 500 "GitHub OAuth not configured")
          else
            let* githubState := randomUUID in
            let* _ := put_session githubState
                        (mkPendingSession (Some oauthReqInfo) None (req_now r)) 3600 in
            ret (github_redirect env r githubState)
      end
  end.

Definition github_user_id (code : string) : string :=
  "github_user_" ++ substring 0 8 code.

(** [/github/callback], the [else if (session.oauth_params)] branch *)
Definition complete_manually (env : Env) (code : string) (op : OAuthParams) (now : Z)
  : M Outcome :=
  let* authCode := randomUUID in
  let* _ := put_code authCode
              (mkAuthCode (op_client_id op) (op_redirect_uri op) (op_code_challenge op)
                 (op_code_challenge_method op) code (github_user_id code) now) 600 in
  (* new URL(session.oauth_params.redirect_uri) *)
  match parseURL env (default "null" (op_redirect_uri op)) with
  | None => ret (Thrown "TypeError: Invalid URL")
  | Some redirectUrl =>
      let u := url_set redirectUrl "code" authCode in
      let u := if truthy (op_state op) then url_set u "state" (default "" (op_state op)) else u in
      ret (redirect u)
  end.

(** [/github/callback] *)
Definition github_callback (env : Env) (r : Request) : M Outcome :=
  let code := query_get r "code" in
  let state := query_get r "state" in
  if negb (truthy code) || negb (truthy state) then ret (text_resp 400 "Missing code or state")
  else
    let c := default "" code in
    let st := default "" state in
    let* sessionData := get_session st in
    match sessionData with
    | None => ret (text_resp 400 "Invalid or expired session")
    | Some session =>
        let* _ := delete_session st in
        let manual :=
          match ps_oauth_params session with
          | Some op => complete_manually env c op (req_now r)
          | None => ret (text_resp 500 "Invalid session data")
          end in
        match ps_oauth_request session, OAUTH_PROVIDER env with
        | Some oreq, Some p =>
            if json_truthy oreq then
              match completeAuthorization p oreq (github_user_id c) with
              | inl msg => ret (text_resp 500 ("Error completing authorization: " ++ msg))
              | inr redirectTo =>
                  match parseURL env redirectTo with      (* Response.redirect *)
                  | Some u => ret (redirect u)
                  | None => ret (text_resp 500 "Error completing authorization: Invalid URL")
                  end
              end
            else manual
        | _, _ => manual
        end
    end.

Definition token_error (err : string) (desc : option string) : Outcome :=
  json_resp 400 (("error", JStr err) ::
                 match desc with Some d => [("error_description", JStr d)] | None => [] end).

Definition is_authorization_code (v : option string) : bool :=
  match v with Some g => String.eqb g "authorization_code" | None => false end.

(** [POST /token] *)
Definition token (r : Request) : M Outcome :=
  match req_form r with
  | None => ret (json_resp 500 [("error", JStr "server_error")])
  | Some formData =>
      let grantType := param_get formData "grant_type" in
      let code := param_get formData "code" in
      let codeVerifier := param_get formData "code_verifier" in
      let clientId := param_get formData "client_id" in
      if negb (is_authorization_code grantType) then
        ret (token_error "unsupported_grant_type" None)
      else if negb (truthy code) || negb (truthy codeVerifier) then
        ret (token_error "invalid_request" (Some "Missing code or code_verifier"))
      else
        let c := default "" code in
        let v := default "" codeVerifier in
        let* authData := get_code c in
        match authData with
        | None => ret (token_error "invalid_grant" (Some "Invalid or expired authorization code"))
        | Some authInfo =>
            let* _ := delete_code c in
            (* Verify PKCE if provided *)
            if truthy (ac_code_challenge authInfo)
               && negb (String.eqb (Pkce.pkce_challenge v) (default "" (ac_code_challenge authInfo)))
            then ret (token_error "invalid_grant" (Some "Invalid code verifier"))
            else
              let* accessToken := randomUUID in
              let* refreshToken := randomUUID in
              let* _ := put_token accessToken
                          (mkTokenInfo (ac_user_id authInfo) (ac_client_id authInfo)
                             (ac_github_code authInfo) (req_now r)) 3600 in
              ret (json_resp 200 [("access_token", JStr accessToken);
                                  ("token_type", JStr "Bearer");
                                  ("expires_in", JNum 3600);
                                  ("refresh_token", JStr refreshToken)])
        end
  end.

Definition authorization_handler (env : Env) (r : Request) : M Outcome :=
  if String.eqb (req_path r) "/authorize" then authorize env r
  else if String.eqb (req_path r) "/github/callback" then github_callback env r
  else if String.eqb (req_path r) "/token" && String.eqb (req_method r) "POST" then token r
  else if String.eqb (req_path r) "/" then
    ret (Resp (mkResponse 200 [("Content-Type", "text/plain")]
                 (BText "Limitless MCP Server with GitHub OAuth") None))
  else ret (text_resp 404 "Not Found").

(* ------------------------------------------------------------------ *)
(** ** The default [fetch] export *)

Definition rate_limit (mw : Middleware) (r : Request) : M bool :=
  fun s => let (ok, rl) := rateLimitCheck mw r (st_rl s) in
           (ok, mkState (st_kv s) (st_log s) rl (st_rng s) (st_next s)).

Definition unauthorized : Outcome :=
  Resp (mkResponse 401 [("WWW-Authenticate", "Bearer")] (BText "Unauthorized") None).

(** [env.ENABLE_IP_ALLOWLIST === 'true'] *)
Definition allowlist_enabled (env : Env) : bool :=
  match ENABLE_IP_ALLOWLIST env with Some f => String.eqb f "true" | None => false end.

(** [/sse] and [/sse/...] *)
Definition sse_gate (mw : Middleware) (env : Env) (r : Request) : M Outcome :=
  if allowlist_enabled env && negb (validateAnthropicOrigin mw r)
  then ret (Resp (mkResponse 403 (createSecurityHeaders mw) (BText "Forbidden") None))
  else
    let* allowed := if RATE_LIMIT_KV env then rate_limit mw r else ret true in
    if negb allowed then
      ret (Resp (mkResponse 429 (createSecurityHeaders mw) (BText "Too Many Requests") None))
    else
      let authHeader := header_get (req_headers r) "Authorization" in
      match authHeader with
      | Some h =>
          if truthy authHeader && String.prefix "Bearer " h then
            let token := substring 7 (String.length h - 7) h in
            let* tokenData := get_token token in
            match tokenData with
            | Some tokenInfo =>
                ret (Forward (mkProps true (ti_user_id tokenInfo) (ti_client_id tokenInfo)))
            | None => ret unauthorized
            end
          else ret unauthorized
      | None => ret unauthorized
      end.

Definition discovery (r : Request) : Outcome :=
  let o := req_origin r in
  json_resp 200
    [("issuer", JStr o);
     ("authorization_endpoint", JStr (o ++ "/authorize"));
     ("token_endpoint", JStr (o ++ "/token"));
     ("registration_endpoint", JStr (o ++ "/register"));
     ("scopes_supported", JArr [JStr "mcp"]);
     ("response_types_supported", JArr [JStr "code"]);
     ("grant_types_supported", JArr [JStr "authorization_code"; JStr "refresh_token"]);
     ("code_challenge_methods_supported", JArr [JStr "S256"]);
     ("token_endpoint_auth_methods_supported", JArr [JStr "none"])].

(** [POST /register] *)
Definition register (r : Request) : M Outcome :=
  match req_json r with
  | None => ret (Thrown "SyntaxError: invalid JSON body")
  | Some body =>
      let* clientId := randomUUID in
      (* { ...body, client_id: clientId, created_at: Date.now() } *)
      let* _ := put_client clientId
                  (obj_set (obj_set (spread [] body) "client_id" (JStr clientId))
                     "created_at" (JNum (req_now r))) (86400 * 30) in
      (* { client_id: clientId, ...body } *)
      ret (Resp (mkResponse 201 [("Content-Type", "application/json")]
                   (BJson (spread [("client_id", JStr clientId)] body)) None))
  end.

Definition fetch (mw : Middleware) (env : Env) (r : Request) : M Outcome :=
  if String.eqb (req_path r) "/sse" || String.prefix "/sse/" (req_path r) then sse_gate mw env r
  else if String.eqb (req_path r) "/.well-known/oauth-authorization-server" then ret (discovery r)
  else if String.eqb (req_path r) "/register" && String.eqb (req_method r) "POST" then register r
  else authorization_handler env r.

Definition outcome_status (o : Outcome) : option Z :=
  match o with Resp r => Some (status r) | _ => None end.

End Broker.

(* ------------------------------------------------------------------ *)
(** ** Concrete inputs (the scenario of the spec, RFC 7636 appendix B) *)

Module Fixtures.
Import Broker.
Local Open Scope string_scope.

Definition rfc_verifier : string := "dBjftJeZ4CVP-mB92K27uhbUJU1p1r_wW1gFWFOEjXk".
Definition rfc_challenge : string := "E9Melhoa2OwvFrEMTJguCHaoeK1t8URWbuGJSstw-cM".

Definition uuids (n : nat) : string :=
  match n with
  | O => "uuid-0" | S O => "uuid-1" | S (S O) => "uuid-2" | _ => "uuid-n"
  end.

Definition empty_kv : KV := mkKV ∅ ∅ ∅ ∅.
Definition s_empty : State := mkState empty_kv [] ∅ uuids 0.

Definition code_rec (client : string) (ch method : option string) : AuthCode :=
  mkAuthCode (Some client) (Some "https://client.example/cb") ch method
    "provcode" (github_user_id "provcode") 0.

Definition s_code (c : string) (a : AuthCode) : State :=
  mkState (mkKV ∅ {[c := (a, 600)]} ∅ ∅) [] ∅ uuids 0.

Definition mk_req (meth path : string) (q : list (string * string))
  (h : list (string * string)) (form : option (list (string * string)))
  (js : option Json) : Request :=
  mkRequest meth "https://broker.example" path q h form js 0.

Definition token_form (code verifier client : string) : list (string * string) :=
  [("grant_type", "authorization_code"); ("code", code);
   ("code_verifier", verifier); ("client_id", client)].

Definition token_req (form : list (string * string)) : Request :=
  mk_req "POST" "/token" [] [] (Some form) None.

(** The runtime's URL parser on the strings the examples below hand it:
    [https://client.example/cb] parses to an https URL with path [/cb], no
    query and no fragment; [not-a-url] has no scheme and, without a base,
    makes [new URL] throw.  No other string reaches the parser in the
    examples. *)
Definition fixture_URL (s : string) : option URL :=
  if String.eqb s "https://client.example/cb"
  then Some (mkURL "https://client.example/cb" [] "")
  else None.

Definition env_fallback : Env := mkEnv None "gh-client" false None fixture_URL.

Definition authorize_query : list (string * string) :=
  [("response_type", "code"); ("client_id", "abc");
   ("redirect_uri", "https://client.example/cb");
   ("code_challenge", rfc_challenge); ("code_challenge_method", "S256");
   ("state", "xyz")].

Definition session_of (ru : string) (state : option string) : PendingSession :=
  mkPendingSession None
    (Some (mkOAuthParams (Some "code") (Some "abc") (Some ru) (Some rfc_challenge)
             (Some "S256") state None)) 0.

Definition s_session (id : string) (p : PendingSession) : State :=
  mkState (mkKV {[id := (p, 3600)]} ∅ ∅ ∅) [] ∅ uuids 0.

Definition mw_open : Middleware := mkMiddleware (fun _ => true) (fun _ rl => (true, rl)) [].

Definition authorize_req (q : list (string * string)) : Request :=
  mk_req "GET" "/authorize" q [] None None.

(** an OAuth-provider helper that accepts every request *)
Definition env_provider : Env :=
  mkEnv (Some (mkProvider (fun _ => inr (JObj [])) (fun _ _ => inr "https://client.example/cb")))
    "gh-client" false None fixture_URL.

Definition callback_req (code state : string) : Request :=
  mk_req "GET" "/github/callback" [("code", code); ("state", state)] [] None None.

(** the [Location] of a redirect answer *)
Definition location_of (o : Outcome) : URL :=
  match o with
  | Resp rsp => match location rsp with Some u => u | None => GITHUB_AUTH_URL end
  | _ => GITHUB_AUTH_URL
  end.

End Fixtures.

(* ================================================================== *)
(** * Properties *)

(** ** The source's [btoa] + replace chain is base64url without padding *)

Module PkceFacts.
Import Pkce.
Local Open Scope string_scope.

Lemma url_safe_char (i : Z) (rest : string) :
  url_safe (String (alpha_char std_alphabet i) rest)
  = String (alpha_char url_alphabet i) (url_safe rest).
Proof.
  unfold alpha_char. generalize (Z.to_nat i) as n. intros n.
  do 64 (destruct n as [|n]; [reflexivity|]).
  destruct n; reflexivity.
Qed.

Lemma url_safe_pad (rest : string) : url_safe (String "=" rest) = url_safe rest.
Proof. reflexivity. Qed.

Lemma url_safe_btoa (bs : list Z) : url_safe (btoa bs) = base64url_nopad bs.
Proof.
  remember (length bs) as n eqn:Hn. assert (Hle : (length bs <= n)%nat) by lia.
  clear Hn. revert bs Hle. induction n as [|n IH]; intros bs Hle.
  - destruct bs; [reflexivity | simpl in Hle; lia].
  - destruct bs as [|a [|b [|c r]]].
    + reflexivity.
    + cbn [btoa base64url_nopad]. rewrite !url_safe_char, !url_safe_pad. reflexivity.
    + cbn [btoa base64url_nopad]. rewrite !url_safe_char, !url_safe_pad. reflexivity.
    + cbn [btoa base64url_nopad]. rewrite !url_safe_char. rewrite IH; [reflexivity|].
      simpl in Hle. lia.
Qed.

Lemma pkce_challenge_spec (v : string) : pkce_challenge v = spec_challenge v.
Proof. apply url_safe_btoa. Qed.

End PkceFacts.

(** ** URLSearchParams *)

Module ParamFacts.
Import Broker.
Local Open Scope string_scope.

Lemma param_set_aux_found (ps : list (string * string)) (k k' v : string) :
  k' <> k -> param_get (param_set_aux ps k v true) k' = param_get ps k'.
Proof.
  intros Hne. induction ps as [|[k0 v0] r IH]; simpl; [reflexivity|].
  destruct (String.eqb_spec k0 k) as [->|Hk]; simpl.
  - destruct (String.eqb_spec k k') as [->|]; [congruence|]. exact IH.
  - destruct (String.eqb k0 k'); [reflexivity|exact IH].
Qed.

Lemma param_get_set_eq (ps : list (string * string)) (k v : string) :
  param_get (param_set ps k v) k = Some v.
Proof.
  unfold param_set. induction ps as [|[k0 v0] r IH]; simpl.
  - rewrite String.eqb_refl. reflexivity.
  - destruct (String.eqb_spec k0 k) as [->|Hk]; simpl.
    + rewrite String.eqb_refl. reflexivity.
    + apply String.eqb_neq in Hk. rewrite Hk. exact IH.
Qed.

Lemma param_get_set_neq (ps : list (string * string)) (k k' v : string) :
  k' <> k -> param_get (param_set ps k v) k' = param_get ps k'.
Proof.
  intros Hne. unfold param_set. induction ps as [|[k0 v0] r IH]; simpl.
  - apply String.eqb_neq in Hne. rewrite (String.eqb_sym k k'), Hne. reflexivity.
  - destruct (String.eqb_spec k0 k) as [->|Hk]; simpl.
    + assert (Hne' := Hne). apply String.eqb_neq in Hne'.
      rewrite (String.eqb_sym k k'), Hne'. apply param_set_aux_found; exact Hne.
    + destruct (String.eqb k0 k'); [reflexivity|exact IH].
Qed.

End ParamFacts.

(** ** The Token Endpoint *)

Module TokenProofs.
Import Broker.
Local Open Scope string_scope.

Ltac step := cbn -[Pkce.pkce_challenge Pkce.spec_challenge String.eqb lookup insert delete].

(** unfold [token] up to the code lookup, given a form that passes the
    grant-type and parameter checks *)
Ltac token_prelude Hf Hg Hc Hc0 Hv Hv0 :=
  unfold token; rewrite Hf, Hg, Hc, Hv;
  apply String.eqb_neq in Hc0, Hv0;
  cbn [is_authorization_code truthy negb default from_option id];
  rewrite Hc0, Hv0; cbn [negb orb];
  unfold bind, ret, get_code, delete_code, kv_get, kv_delete, randomUUID, put_token, kv_put;
  rewrite String.eqb_refl; step.

(** C10: with no PKCE challenge stored with the code ([null] or [""]),
    the exchange succeeds for every (present) verifier: it returns 200 with
    a bearer token and stores the AccessTokenRecord with TTL 3600. *)
Theorem C10_no_challenge_no_pkce (r : Request) (f : list (string * string)) (s : State)
  (c v : string) (a : AuthCode) (ttl : Z) :
  req_form r = Some f ->
  param_get f "grant_type" = Some "authorization_code" ->
  param_get f "code" = Some c -> c <> "" ->
  param_get f "code_verifier" = Some v -> v <> "" ->
  kv_codes (st_kv s) !! c = Some (a, ttl) ->
  truthy (ac_code_challenge a) = false ->
  fst (token r s) =
    json_resp 200 [("access_token", JStr (st_rng s (st_next s)));
                   ("token_type", JStr "Bearer");
                   ("expires_in", JNum 3600);
                   ("refresh_token", JStr (st_rng s (S (st_next s))))]
  /\ kv_tokens (st_kv (snd (token r s))) !! st_rng s (st_next s)
     = Some (mkTokenInfo (ac_user_id a) (ac_client_id a) (ac_github_code a) (req_now r), 3600).
Proof.
  intros Hf Hg Hc Hc0 Hv Hv0 Hl Ht.
  token_prelude Hf Hg Hc Hc0 Hv Hv0.
  rewrite Hl. step. rewrite Ht. step.
  split; [reflexivity|]. apply lookup_insert_eq.
Qed.

(** C1 (amended): for a stored code and a request passing the parameter
    checks, the exchange succeeds exactly when the stored challenge is
    absent/empty or equals base64url(SHA-256(verifier)) without padding;
    the stored method is never consulted; otherwise the answer is
    [invalid_grant]. *)
Theorem C1_pkce_exchange (r : Request) (f : list (string * string)) (s : State)
  (c v : string) (a : AuthCode) (ttl : Z) :
  req_form r = Some f ->
  param_get f "grant_type" = Some "authorization_code" ->
  param_get f "code" = Some c -> c <> "" ->
  param_get f "code_verifier" = Some v -> v <> "" ->
  kv_codes (st_kv s) !! c = Some (a, ttl) ->
  (outcome_status (fst (token r s)) = Some 200 <->
     truthy (ac_code_challenge a) = false
     \/ ac_code_challenge a = Some (Pkce.spec_challenge v))
  /\ (outcome_status (fst (token r s)) <> Some 200 ->
      fst (token r s) = token_error "invalid_grant" (Some "Invalid code verifier")).
Proof.
  intros Hf Hg Hc Hc0 Hv Hv0 Hl.
  token_prelude Hf Hg Hc Hc0 Hv Hv0.
  rewrite Hl. step. rewrite PkceFacts.pkce_challenge_spec.
  destruct (truthy (ac_code_challenge a)) eqn:Ht; step.
  - destruct (ac_code_challenge a) as [ch|] eqn:Hch; [|discriminate]. step.
    destruct (String.eqb_spec (Pkce.spec_challenge v) ch) as [<-|Hne]; step.
    + split; [split; auto|]. intros H; exfalso; apply H; reflexivity.
    + split; [split; [discriminate|] | reflexivity].
      intros [H|H]; [discriminate|]. inversion H; congruence.
  - split; [split; auto|]. intros H; exfalso; apply H; reflexivity.
Qed.

(** C2: a token request that reaches the lookup deletes the code right
    after the lookup, before the PKCE check and whatever its outcome; a
    later request with the same code then fails with [invalid_grant]. *)
Theorem C2_code_deleted_on_lookup (r1 : Request) (f1 : list (string * string)) (s : State)
  (c v1 : string) :
  req_form r1 = Some f1 ->
  param_get f1 "grant_type" = Some "authorization_code" ->
  param_get f1 "code" = Some c -> c <> "" ->
  param_get f1 "code_verifier" = Some v1 -> v1 <> "" ->
  kv_codes (st_kv (snd (token r1 s))) !! c = None
  /\ (kv_codes (st_kv s) !! c <> None ->
      exists rest, st_log (snd (token r1 s))
        = app (st_log s) (OGet ("auth_code:" ++ c) :: ODelete ("auth_code:" ++ c) :: rest))
  /\ (forall (r2 : Request) (f2 : list (string * string)) (v2 : string),
        req_form r2 = Some f2 ->
        param_get f2 "grant_type" = Some "authorization_code" ->
        param_get f2 "code" = Some c ->
        param_get f2 "code_verifier" = Some v2 -> v2 <> "" ->
        fst (token r2 (snd (token r1 s)))
        = token_error "invalid_grant" (Some "Invalid or expired authorization code")).
Proof.
  intros Hf Hg Hc Hc0 Hv Hv0.
  assert (Hgone : kv_codes (st_kv (snd (token r1 s))) !! c = None).
  { pose proof Hc0 as Hc0'. token_prelude Hf Hg Hc Hc0 Hv Hv0.
    destruct (kv_codes (st_kv s) !! c) as [[a ttl]|] eqn:Hl; step; [|exact Hl].
    destruct (truthy (ac_code_challenge a) && _); step; apply lookup_delete_eq. }
  split; [exact Hgone|]. split.
  - intros Hin. token_prelude Hf Hg Hc Hc0 Hv Hv0.
    destruct (kv_codes (st_kv s) !! c) as [[a ttl]|] eqn:Hl; [|congruence]. step.
    destruct (truthy (ac_code_challenge a) && _); step.
    + exists []. rewrite <- !app_assoc. reflexivity.
    + eexists. rewrite <- !app_assoc. reflexivity.
  - intros r2 f2 v2 Hf2 Hg2 Hc2 Hv2 Hv20.
    revert Hgone. generalize (snd (token r1 s)) as s1. intros s1 Hgone.
    token_prelude Hf2 Hg2 Hc2 Hc0 Hv2 Hv20. rewrite Hgone. reflexivity.
Qed.

(** C5: any grant type other than [authorization_code] is answered with
    [unsupported_grant_type]; a missing (or empty) code or verifier with
    [invalid_request]; both with status 400 and without any store
    operation (the state is returned unchanged). *)
Theorem C5_token_validation (r : Request) (f : list (string * string)) (s : State) :
  req_form r = Some f ->
  (param_get f "grant_type" <> Some "authorization_code" ->
     token r s = (token_error "unsupported_grant_type" None, s))
  /\ (param_get f "grant_type" = Some "authorization_code" ->
      truthy (param_get f "code") = false \/ truthy (param_get f "code_verifier") = false ->
      token r s = (token_error "invalid_request" (Some "Missing code or code_verifier"), s)).
Proof.
  intros Hf. unfold token. rewrite Hf. split.
  - intros Hg. destruct (param_get f "grant_type") as [g|] eqn:Hg'; [|reflexivity].
    cbn [is_authorization_code]. destruct (String.eqb_spec g "authorization_code"); [congruence|].
    reflexivity.
  - intros Hg Hmiss. rewrite Hg. cbn [is_authorization_code]. rewrite String.eqb_refl.
    cbn [negb]. destruct Hmiss as [H|H]; rewrite H; [reflexivity|].
    rewrite orb_true_r. reflexivity.
Qed.

Import Fixtures.

Lemma C10_witness :
  fst (token (token_req (token_form "c1" "any-verifier" "abc"))
         (s_code "c1" (code_rec "abc" None None))) =
    json_resp 200 [("access_token", JStr "uuid-0"); ("token_type", JStr "Bearer");
                   ("expires_in", JNum 3600); ("refresh_token", JStr "uuid-1")]
  /\ kv_tokens (st_kv (snd (token (token_req (token_form "c1" "any-verifier" "abc"))
                              (s_code "c1" (code_rec "abc" None None))))) !! "uuid-0"
     = Some (mkTokenInfo (github_user_id "provcode") (Some "abc") "provcode" 0, 3600).
Proof.
  apply (C10_no_challenge_no_pkce (token_req (token_form "c1" "any-verifier" "abc"))
           (token_form "c1" "any-verifier" "abc") (s_code "c1" (code_rec "abc" None None))
           "c1" "any-verifier" (code_rec "abc" None None) 600);
  (reflexivity || discriminate).
Defined.

Lemma C1_witness :
  (outcome_status (fst (token (token_req (token_form "c1" rfc_verifier "abc"))
      (s_code "c1" (code_rec "abc" (Some rfc_challenge) (Some "S256"))))) = Some 200 <->
   truthy (Some rfc_challenge) = false \/ Some rfc_challenge = Some (Pkce.spec_challenge rfc_verifier))
  /\ (outcome_status (fst (token (token_req (token_form "c1" rfc_verifier "abc"))
      (s_code "c1" (code_rec "abc" (Some rfc_challenge) (Some "S256"))))) <> Some 200 ->
      fst (token (token_req (token_form "c1" rfc_verifier "abc"))
        (s_code "c1" (code_rec "abc" (Some rfc_challenge) (Some "S256"))))
      = token_error "invalid_grant" (Some "Invalid code verifier")).
Proof.
  apply (C1_pkce_exchange (token_req (token_form "c1" rfc_verifier "abc"))
           (token_form "c1" rfc_verifier "abc")
           (s_code "c1" (code_rec "abc" (Some rfc_challenge) (Some "S256")))
           "c1" rfc_verifier (code_rec "abc" (Some rfc_challenge) (Some "S256")) 600);
  (reflexivity || discriminate).
Defined.

(** C1 fails as stated: a code whose stored method is [plain] is redeemed
    (200) when the verifier's S256 challenge matches, instead of failing
    with [invalid_grant]. *)
Lemma C1_method_not_consulted :
  fst (token (token_req (token_form "c1" rfc_verifier "abc"))
         (s_code "c1" (code_rec "abc" (Some rfc_challenge) (Some "plain")))) =
    json_resp 200 [("access_token", JStr "uuid-0"); ("token_type", JStr "Bearer");
                   ("expires_in", JNum 3600); ("refresh_token", JStr "uuid-1")].
Proof. vm_compute. reflexivity. Qed.

Lemma C2_witness :
  kv_codes (st_kv (snd (token (token_req (token_form "c1" "wrong" "abc"))
      (s_code "c1" (code_rec "abc" (Some rfc_challenge) (Some "S256")))))) !! "c1" = None
  /\ (kv_codes (st_kv (s_code "c1" (code_rec "abc" (Some rfc_challenge) (Some "S256")))) !! "c1" <> None ->
      exists rest, st_log (snd (token (token_req (token_form "c1" "wrong" "abc"))
        (s_code "c1" (code_rec "abc" (Some rfc_challenge) (Some "S256")))))
      = app [] (OGet ("auth_code:" ++ "c1") :: ODelete ("auth_code:" ++ "c1") :: rest))
  /\ (forall (r2 : Request) (f2 : list (string * string)) (v2 : string),
        req_form r2 = Some f2 ->
        param_get f2 "grant_type" = Some "authorization_code" ->
        param_get f2 "code" = Some "c1" ->
        param_get f2 "code_verifier" = Some v2 -> v2 <> "" ->
        fst (token r2 (snd (token (token_req (token_form "c1" "wrong" "abc"))
          (s_code "c1" (code_rec "abc" (Some rfc_challenge) (Some "S256"))))))
        = token_error "invalid_grant" (Some "Invalid or expired authorization code")).
Proof.
  apply (C2_code_deleted_on_lookup (token_req (token_form "c1" "wrong" "abc"))
           (token_form "c1" "wrong" "abc")
           (s_code "c1" (code_rec "abc" (Some rfc_challenge) (Some "S256"))) "c1" "wrong");
  (reflexivity || discriminate).
Defined.

Lemma C5_witness :
  (param_get [("grant_type", "password")] "grant_type" <> Some "authorization_code" ->
     token (token_req [("grant_type", "password")]) s_empty
     = (token_error "unsupported_grant_type" None, s_empty))
  /\ (param_get [("grant_type", "password")] "grant_type" = Some "authorization_code" ->
      truthy (param_get [("grant_type", "password")] "code") = false
      \/ truthy (param_get [("grant_type", "password")] "code_verifier") = false ->
      token (token_req [("grant_type", "password")]) s_empty
      = (token_error "invalid_request" (Some "Missing code or code_verifier"), s_empty)).
Proof.
  apply (C5_token_validation (token_req [("grant_type", "password")])
           [("grant_type", "password")] s_empty).
  reflexivity.
Defined.

(** C4: the client id submitted to [/token] is read but never compared
    with the one bound to the code: a code issued to [abc] is redeemed by
    a request claiming client [evil]. *)
Lemma C4_client_id_not_checked :
  ac_client_id (code_rec "abc" (Some rfc_challenge) (Some "S256")) = Some "abc"
  /\ fst (token (token_req (token_form "c1" rfc_verifier "evil"))
          (s_code "c1" (code_rec "abc" (Some rfc_challenge) (Some "S256")))) =
     json_resp 200 [("access_token", JStr "uuid-0"); ("token_type", JStr "Bearer");
                    ("expires_in", JNum 3600); ("refresh_token", JStr "uuid-1")].
Proof. split; [reflexivity | vm_compute; reflexivity]. Qed.

End TokenProofs.

(** ** The Identity Callback Handler *)

Module CallbackProofs.
Import Broker.
Local Open Scope string_scope.

Ltac step := cbn -[String.eqb lookup insert delete].

Lemma complete_manually_states (env : Env) (c : string) (op : OAuthParams) (now : Z)
  (s : State) :
  kv_states (st_kv (snd (complete_manually env c op now s))) = kv_states (st_kv s).
Proof.
  unfold complete_manually, bind, ret, randomUUID, put_code, kv_put. step.
  destruct (parseURL env _); reflexivity.
Qed.

(** after a callback with a present code and state, no session is stored
    under that state any more *)
Lemma callback_consumes_state (env : Env) (r : Request) (s : State) (c st : string) :
  query_get r "code" = Some c -> c <> "" -> query_get r "state" = Some st -> st <> "" ->
  kv_states (st_kv (snd (github_callback env r s))) !! st = None.
Proof.
  intros Hc Hc0 Hs Hs0. apply String.eqb_neq in Hc0, Hs0.
  unfold github_callback. rewrite Hc, Hs. cbn [truthy negb default from_option id].
  rewrite Hc0, Hs0. cbn [negb orb].
  unfold bind, ret, get_session, delete_session, kv_get, kv_delete. step.
  destruct (kv_states (st_kv s) !! st) as [[sess ttl]|] eqn:Hl; step; [|exact Hl].
  assert (Hdel : forall s0 : State,
    kv_states (st_kv s0) !! st = None ->
    kv_states (st_kv (snd (match ps_oauth_params sess with
                           | Some op => complete_manually env c op (req_now r)
                           | None => ret (text_resp 500 "Invalid session data")
                           end s0))) !! st = None).
  { intros s0 H0. destruct (ps_oauth_params sess); [|exact H0].
    rewrite complete_manually_states. exact H0. }
  destruct (ps_oauth_request sess) as [oreq|], (OAUTH_PROVIDER env) as [p|];
    try (apply Hdel; apply lookup_delete_eq).
  destruct (json_truthy oreq); [|apply Hdel; apply lookup_delete_eq].
  destruct (completeAuthorization p oreq _) as [msg|redirectTo]; step;
    [apply lookup_delete_eq|].
  destruct (parseURL env redirectTo); apply lookup_delete_eq.
Qed.

(** a callback whose state names no stored session is refused *)
Lemma callback_no_session (env : Env) (r : Request) (s : State) (c st : string) :
  query_get r "code" = Some c -> c <> "" -> query_get r "state" = Some st -> st <> "" ->
  kv_states (st_kv s) !! st = None ->
  fst (github_callback env r s) = text_resp 400 "Invalid or expired session".
Proof.
  intros Hc Hc0 Hs Hs0 Hl. apply String.eqb_neq in Hc0, Hs0.
  unfold github_callback. rewrite Hc, Hs. cbn [truthy negb default from_option id].
  rewrite Hc0, Hs0. cbn [negb orb].
  unfold bind, ret, get_session, kv_get. step. rewrite Hl. reflexivity.
Qed.

(** C3: once a callback has looked up the session of [state], every later
    callback with that state (and a code) fails with 400 "Invalid or
    expired session", as does any callback whose state names no stored
    session. *)
Theorem C3_session_single_use (env : Env) (r1 r2 : Request) (s : State) (c1 c2 st : string) :
  query_get r1 "code" = Some c1 -> c1 <> "" ->
  query_get r1 "state" = Some st -> st <> "" ->
  query_get r2 "code" = Some c2 -> c2 <> "" ->
  query_get r2 "state" = Some st ->
  fst (github_callback env r2 (snd (github_callback env r1 s)))
    = text_resp 400 "Invalid or expired session"
  /\ (forall s' : State, kv_states (st_kv s') !! st = None ->
        fst (github_callback env r2 s') = text_resp 400 "Invalid or expired session").
Proof.
  intros Hc1 Hc10 Hs1 Hs0 Hc2 Hc20 Hs2.
  split.
  - apply (callback_no_session env r2 _ c2 st); auto.
    apply (callback_consumes_state env r1 s c1 st); auto.
  - intros s' Hl. apply (callback_no_session env r2 s' c2 st); auto.
Qed.

(** the URL the manual completion redirects to, built from the parsed
    redirect URI [u] *)
Lemma manual_redirect_params (u : URL) (id : string) (ost : option string) :
  let u1 := url_set u "code" id in
  let u' := if truthy ost then url_set u1 "state" (default "" ost) else u1 in
  url_base u' = url_base u /\ url_hash u' = url_hash u
  /\ url_get u' "code" = Some id
  /\ (truthy ost = true -> url_get u' "state" = ost)
  /\ (truthy ost = false -> url_get u' "state" = url_get u "state")
  /\ (forall k, k <> "code" -> k <> "state" -> url_get u' k = url_get u k).
Proof.
  intros u1 u'. subst u1 u'. unfold url_get, url_set.
  destruct (truthy ost) eqn:Hst; cbn [url_params url_base url_hash].
  - split; [reflexivity|]. split; [reflexivity|].
    split; [rewrite ParamFacts.param_get_set_neq by discriminate;
            apply ParamFacts.param_get_set_eq|].
    split; [intros _; rewrite ParamFacts.param_get_set_eq;
            destruct ost; [reflexivity | discriminate]|].
    split; [discriminate|].
    intros k Hk1 Hk2. rewrite !ParamFacts.param_get_set_neq by assumption. reflexivity.
  - split; [reflexivity|]. split; [reflexivity|].
    split; [apply ParamFacts.param_get_set_eq|].
    split; [discriminate|].
    split; [intros _; apply ParamFacts.param_get_set_neq; discriminate|].
    intros k Hk1 Hk2. apply ParamFacts.param_get_set_neq. assumption.
Qed.

(** C7 (amended): redeeming a session created by the fallback
    [/authorize] stores a fresh AuthorizationCode (TTL 600) bound to the
    session's client id, redirect URI and challenge.  When the runtime's URL
    parser accepts the original redirect URI, the answer is a 302 to that
    URL with [code] set to the fresh code and, when the caller's original
    state is non-empty, [state] set to it; the URI's other parameters, and
    its own [state] when the caller sent none, are kept (nothing is
    appended).  When the parser refuses the redirect URI, the handler
    throws, after storing the code. *)
Theorem C7_manual_completion (env : Env) (r : Request) (s : State) (c st : string)
  (sess : PendingSession) (op : OAuthParams) (ttl : Z) :
  query_get r "code" = Some c -> c <> "" ->
  query_get r "state" = Some st -> st <> "" ->
  kv_states (st_kv s) !! st = Some (sess, ttl) ->
  ps_oauth_request sess = None -> ps_oauth_params sess = Some op ->
  kv_codes (st_kv (snd (github_callback env r s))) !! st_rng s (st_next s)
    = Some (mkAuthCode (op_client_id op) (op_redirect_uri op) (op_code_challenge op)
              (op_code_challenge_method op) c (github_user_id c) (req_now r), 600)
  /\ match parseURL env (default "null" (op_redirect_uri op)) with
     | Some u =>
         exists u', fst (github_callback env r s) = redirect u'
           /\ url_base u' = url_base u /\ url_hash u' = url_hash u
           /\ url_get u' "code" = Some (st_rng s (st_next s))
           /\ (truthy (op_state op) = true -> url_get u' "state" = op_state op)
           /\ (truthy (op_state op) = false -> url_get u' "state" = url_get u "state")
           /\ (forall k, k <> "code" -> k <> "state" -> url_get u' k = url_get u k)
     | None => exists msg, fst (github_callback env r s) = Thrown msg
     end.
Proof.
  intros Hc Hc0 Hs Hs0 Hl Hreq Hop. apply String.eqb_neq in Hc0, Hs0.
  unfold github_callback. rewrite Hc, Hs. cbn [truthy negb default from_option id].
  rewrite Hc0, Hs0. cbn [negb orb].
  unfold bind, ret, get_session, delete_session, kv_get, kv_delete. step.
  rewrite Hl. step. rewrite Hreq, Hop.
  destruct (OAUTH_PROVIDER env);
  unfold complete_manually, bind, ret, randomUUID, put_code, kv_put; step;
  (destruct (parseURL env (default "null" (op_redirect_uri op))) as [u|] eqn:Hu; step;
   split; [apply lookup_insert_eq | |apply lookup_insert_eq | eexists; reflexivity]);
  (eexists; split; [reflexivity|];
   exact (manual_redirect_params u (st_rng s (st_next s)) (op_state op))).
Qed.

Import Fixtures.

Lemma C3_witness :
  fst (github_callback env_fallback (callback_req "provcode" "sess-1")
         (snd (github_callback env_fallback (callback_req "provcode" "sess-1")
                 (s_session "sess-1" (session_of "https://client.example/cb" (Some "xyz"))))))
    = text_resp 400 "Invalid or expired session"
  /\ (forall s' : State, kv_states (st_kv s') !! "sess-1" = None ->
        fst (github_callback env_fallback (callback_req "provcode" "sess-1") s')
        = text_resp 400 "Invalid or expired session").
Proof.
  apply (C3_session_single_use env_fallback (callback_req "provcode" "sess-1")
           (callback_req "provcode" "sess-1")
           (s_session "sess-1" (session_of "https://client.example/cb" (Some "xyz")))
           "provcode" "provcode" "sess-1"); (reflexivity || discriminate).
Defined.

Lemma C7_witness :
  kv_codes (st_kv (snd (github_callback env_fallback (callback_req "provcode" "sess-1")
      (s_session "sess-1" (session_of "https://client.example/cb" (Some "xyz")))))) !! "uuid-0"
    = Some (mkAuthCode (Some "abc") (Some "https://client.example/cb") (Some rfc_challenge)
              (Some "S256") "provcode" (github_user_id "provcode") 0, 600)
  /\ match parseURL env_fallback (default "null" (Some "https://client.example/cb")) with
     | Some u =>
         exists u', fst (github_callback env_fallback (callback_req "provcode" "sess-1")
                      (s_session "sess-1" (session_of "https://client.example/cb" (Some "xyz"))))
                    = redirect u'
           /\ url_base u' = url_base u /\ url_hash u' = url_hash u
           /\ url_get u' "code" = Some "uuid-0"
           /\ (truthy (Some "xyz") = true -> url_get u' "state" = Some "xyz")
           /\ (truthy (Some "xyz") = false -> url_get u' "state" = url_get u "state")
           /\ (forall k, k <> "code" -> k <> "state" -> url_get u' k = url_get u k)
     | None => exists msg, fst (github_callback env_fallback (callback_req "provcode" "sess-1")
                      (s_session "sess-1" (session_of "https://client.example/cb" (Some "xyz"))))
               = Thrown msg
     end.
Proof.
  apply (C7_manual_completion env_fallback (callback_req "provcode" "sess-1")
           (s_session "sess-1" (session_of "https://client.example/cb" (Some "xyz")))
           "provcode" "sess-1" (session_of "https://client.example/cb" (Some "xyz"))
           (mkOAuthParams (Some "code") (Some "abc") (Some "https://client.example/cb")
              (Some rfc_challenge) (Some "S256") (Some "xyz") None) 3600);
  (reflexivity || discriminate).
Defined.

(** C7 fails as stated: [/authorize] accepts any non-empty redirect URI;
    for one that [new URL] refuses ([not-a-url]: no scheme, no base), the
    callback stores the code and then throws at [new URL(...)], outside any
    [try], instead of redirecting. *)
Lemma C7_invalid_redirect_uri_throws :
  let q := [("response_type", "code"); ("client_id", "abc");
            ("redirect_uri", "not-a-url"); ("state", "xyz")] in
  let s1 := snd (fetch mw_open env_fallback (authorize_req q) s_empty) in
  fst (fetch mw_open env_fallback (authorize_req q) s_empty)
    = github_redirect env_fallback (authorize_req q) "uuid-0"
  /\ (exists msg, fst (fetch mw_open env_fallback (callback_req "provcode" "uuid-0") s1)
                  = Thrown msg)
  /\ kv_codes (st_kv (snd (fetch mw_open env_fallback (callback_req "provcode" "uuid-0") s1)))
       !! "uuid-1" <> None.
Proof.
  vm_compute. split; [reflexivity|]. split; [eexists; reflexivity | discriminate].
Qed.

End CallbackProofs.

(** ** The Authorization Endpoint *)

Module AuthorizeProofs.
Import Broker.
Local Open Scope string_scope.

Ltac step := cbn -[String.eqb lookup insert delete].

(** C6 (amended): on the fallback path (no OAuth-provider helper bound),
    a request lacking a non-empty response type, client id or redirect
    URI gets HTTP 400 with the plain-text body "Missing required OAuth
    parameters" and no store operation at all; any other request performs
    exactly one store operation, a put of the PendingAuthorizationSession
    (with the request's non-empty client id and redirect URI) under
    [github_state:<fresh id>] with TTL 3600, and is answered with a 302 to
    GitHub's authorize URL whose [state] is that fresh id. *)
Theorem C6_authorize_fallback (env : Env) (r : Request) (s : State) :
  OAUTH_PROVIDER env = None ->
  (truthy (query_get r "response_type") && truthy (query_get r "client_id")
     && truthy (query_get r "redirect_uri") = false ->
   authorize env r s = (text_resp 400 "Missing required OAuth parameters", s))
  /\ (truthy (query_get r "response_type") && truthy (query_get r "client_id")
        && truthy (query_get r "redirect_uri") = true ->
      st_log (snd (authorize env r s))
        = app (st_log s) [OPut ("github_state:" ++ st_rng s (st_next s)) 3600]
      /\ (exists (sess : PendingSession) (op : OAuthParams),
            kv_states (st_kv (snd (authorize env r s))) !! st_rng s (st_next s)
              = Some (sess, 3600)
            /\ ps_oauth_params sess = Some op
            /\ op_client_id op = query_get r "client_id"
            /\ op_redirect_uri op = query_get r "redirect_uri"
            /\ truthy (op_client_id op) = true /\ truthy (op_redirect_uri op) = true)
      /\ (exists u, fst (authorize env r s) = redirect u
            /\ url_base u = "https://github.com/login/oauth/authorize"
            /\ url_get u "state" = Some (st_rng s (st_next s)))).
Proof.
  intros Hp. unfold authorize. rewrite Hp. cbv zeta. split.
  - intros Hbad.
    destruct (truthy (query_get r "response_type")), (truthy (query_get r "client_id")),
      (truthy (query_get r "redirect_uri")); try discriminate; reflexivity.
  - intros Hok. apply andb_prop in Hok as [Hok Hru]. apply andb_prop in Hok as [Hrt Hci].
    rewrite Hrt, Hci, Hru. step.
    unfold bind, ret, randomUUID, put_session, kv_put. step.
    split; [reflexivity|]. split.
    + do 2 eexists. split; [apply lookup_insert_eq|]. step. auto.
    + eexists. split; [reflexivity|]. split; [reflexivity|].
      unfold url_get. cbn [url_params url_set]. apply ParamFacts.param_get_set_eq.
Qed.

Import Fixtures.

Lemma C6_witness :
  (truthy (query_get (authorize_req authorize_query) "response_type")
     && truthy (query_get (authorize_req authorize_query) "client_id")
     && truthy (query_get (authorize_req authorize_query) "redirect_uri") = false ->
   authorize env_fallback (authorize_req authorize_query) s_empty
   = (text_resp 400 "Missing required OAuth parameters", s_empty))
  /\ (truthy (query_get (authorize_req authorize_query) "response_type")
        && truthy (query_get (authorize_req authorize_query) "client_id")
        && truthy (query_get (authorize_req authorize_query) "redirect_uri") = true ->
      st_log (snd (authorize env_fallback (authorize_req authorize_query) s_empty))
        = app [] [OPut ("github_state:" ++ "uuid-0") 3600]
      /\ (exists (sess : PendingSession) (op : OAuthParams),
            kv_states (st_kv (snd (authorize env_fallback (authorize_req authorize_query) s_empty)))
              !! "uuid-0" = Some (sess, 3600)
            /\ ps_oauth_params sess = Some op
            /\ op_client_id op = query_get (authorize_req authorize_query) "client_id"
            /\ op_redirect_uri op = query_get (authorize_req authorize_query) "redirect_uri"
            /\ truthy (op_client_id op) = true /\ truthy (op_redirect_uri op) = true)
      /\ (exists u, fst (authorize env_fallback (authorize_req authorize_query) s_empty) = redirect u
            /\ url_base u = "https://github.com/login/oauth/authorize"
            /\ url_get u "state" = Some "uuid-0")).
Proof.
  apply (C6_authorize_fallback env_fallback (authorize_req authorize_query) s_empty).
  reflexivity.
Defined.

(** C6 fails as stated: the rejection carries no [invalid_request] error,
    only a plain-text body; and when an OAuth-provider helper is bound,
    the parameter check is the helper's: one that accepts a request
    without client id leads to a store write. *)
Lemma C6_rejection_not_invalid_request :
  let q := [("response_type", "code"); ("redirect_uri", "https://client.example/cb")] in
  fst (authorize env_fallback (authorize_req q) s_empty)
    = Resp (mkResponse 400 [] (BText "Missing required OAuth parameters") None)
  /\ st_log (snd (authorize env_provider (authorize_req q) s_empty))
     = [OPut "github_state:uuid-0" 3600].
Proof. vm_compute. split; reflexivity. Qed.

End AuthorizeProofs.

(** ** The Bearer Validation Gate *)

Module GateProofs.
Import Broker.
Local Open Scope string_scope.

Lemma prefix_app (p h : string) : String.prefix p h = true -> exists t, h = p ++ t.
Proof.
  revert h. induction p as [|a p IH]; intros h H.
  - exists h. reflexivity.
  - destruct h as [|b h]; [discriminate|]. simpl in H.
    destruct (ascii_dec a b) as [<-|]; [|discriminate].
    destruct (IH h H) as [t ->]. exists t. reflexivity.
Qed.

Lemma prefix_self (p t : string) : String.prefix p (p ++ t) = true.
Proof.
  induction p as [|c p IH].
  - destruct t; reflexivity.
  - simpl. destruct (ascii_dec c c) as [_|n]; [exact IH | congruence].
Qed.

Lemma append_cancel_l (p a b : string) : p ++ a = p ++ b -> a = b.
Proof.
  induction p as [|c p IH]; simpl; [auto|]. intros H. injection H as H. auto.
Qed.

Lemma substring_all (t : string) : substring 0 (String.length t) t = t.
Proof. induction t as [|c t IH]; simpl; [reflexivity | rewrite IH; reflexivity]. Qed.

Lemma bearer_token (t : string) :
  substring 7 (String.length ("Bearer " ++ t) - 7) ("Bearer " ++ t) = t.
Proof. simpl. rewrite Nat.sub_0_r. apply substring_all. Qed.

Lemma fetch_sse (mw : Middleware) (env : Env) (r : Request) :
  (req_path r = "/sse" \/ String.prefix "/sse/" (req_path r) = true) ->
  fetch mw env r = sse_gate mw env r.
Proof.
  intros [H|H]; unfold fetch; rewrite H; [reflexivity|].
  rewrite orb_true_r. reflexivity.
Qed.

(** C8: on [/sse] and [/sse/...] the origin guard runs first (403, only
    when [ENABLE_IP_ALLOWLIST] is ['true'], and then nothing else is
    consulted), then the rate limiter (429, only when [RATE_LIMIT_KV] is
    bound), then the bearer lookup: a missing [Authorization: Bearer]
    header or a token without an AccessTokenRecord gives 401 with
    [WWW-Authenticate: Bearer]; a known token forwards the request with the
    record's user id and client id as [ctx.props].  The middleware
    functions are arbitrary. *)
Theorem C8_sse_gate (mw : Middleware) (env : Env) (r : Request) (s : State) :
  (req_path r = "/sse" \/ String.prefix "/sse/" (req_path r) = true) ->
  (allowlist_enabled env = true -> validateAnthropicOrigin mw r = false ->
     fetch mw env r s
     = (Resp (mkResponse 403 (createSecurityHeaders mw) (BText "Forbidden") None), s))
  /\ (allowlist_enabled env && negb (validateAnthropicOrigin mw r) = false ->
      forall rl : RLStore,
      RATE_LIMIT_KV env = true -> rateLimitCheck mw r (st_rl s) = (false, rl) ->
      fst (fetch mw env r s)
        = Resp (mkResponse 429 (createSecurityHeaders mw) (BText "Too Many Requests") None)
      /\ st_log (snd (fetch mw env r s)) = st_log s)
  /\ (allowlist_enabled env && negb (validateAnthropicOrigin mw r) = false ->
      forall rl : RLStore,
      (if RATE_LIMIT_KV env then rateLimitCheck mw r (st_rl s) else (true, st_rl s)) = (true, rl) ->
      ((forall t, header_get (req_headers r) "Authorization" = Some ("Bearer " ++ t) ->
                  kv_tokens (st_kv s) !! t = None) ->
       fst (fetch mw env r s)
         = Resp (mkResponse 401 [("WWW-Authenticate", "Bearer")] (BText "Unauthorized") None))
      /\ (forall t (ti : TokenInfo) (ttl : Z),
            header_get (req_headers r) "Authorization" = Some ("Bearer " ++ t) ->
            kv_tokens (st_kv s) !! t = Some (ti, ttl) ->
            fst (fetch mw env r s) = Forward (mkProps true (ti_user_id ti) (ti_client_id ti)))).
Proof.
  intros Hpath. rewrite (fetch_sse mw env r Hpath). unfold sse_gate. split; [|split].
  - intros Hg Hv. rewrite Hg, Hv. reflexivity.
  - intros Hpass rl Hkv Hrl. rewrite Hpass, Hkv. unfold bind, rate_limit. rewrite Hrl.
    split; reflexivity.
  - intros Hpass rl Hrl. rewrite Hpass.
    (* the state after the rate limiter has the same KV store and log *)
    assert (Hstep : forall (k : bool -> M Outcome),
      bind (if RATE_LIMIT_KV env then rate_limit mw r else ret true) k s
      = k true (mkState (st_kv s) (st_log s) rl (st_rng s) (st_next s))).
    { intros k. destruct (RATE_LIMIT_KV env); unfold bind, rate_limit, ret.
      - rewrite Hrl. reflexivity.
      - inversion Hrl; subst. destruct s; reflexivity. }
    rewrite Hstep. cbn [negb].
    destruct (header_get (req_headers r) "Authorization") as [h|] eqn:Hh.
    + destruct (String.prefix "Bearer " h) eqn:Hpre.
      * destruct (prefix_app _ _ Hpre) as [t ->].
        cbn [truthy]. rewrite bearer_token.
        assert (Hne : String.eqb ("Bearer " ++ t) "" = false) by reflexivity.
        rewrite Hne. cbn [negb andb].
        unfold bind, get_token, kv_get, ret. cbn -[lookup].
        split.
        -- intros Hnone. rewrite (Hnone t eq_refl). reflexivity.
        -- intros t' ti ttl Heq Hl. injection Heq as Heq.
           apply append_cancel_l in Heq. subst t'. rewrite Hl. reflexivity.
      * rewrite andb_false_r. split; [reflexivity|].
        intros t ti ttl Heq. injection Heq as ->. rewrite prefix_self in Hpre.
        discriminate Hpre.
    + split; [reflexivity | intros t ti ttl Heq; discriminate].
Qed.

Import Fixtures.

Lemma C8_witness :
  let r := mk_req "GET" "/sse" [] [("authorization", "Bearer tok")] None None in
  let s := mkState (mkKV ∅ ∅ {[ "tok" := (mkTokenInfo "github_user_provcode" (Some "abc")
                                              "provcode" 0, 3600) ]} ∅) [] ∅ uuids 0 in
  (allowlist_enabled env_fallback = true -> validateAnthropicOrigin mw_open r = false ->
     fetch mw_open env_fallback r s
     = (Resp (mkResponse 403 (createSecurityHeaders mw_open) (BText "Forbidden") None), s))
  /\ (allowlist_enabled env_fallback && negb (validateAnthropicOrigin mw_open r) = false ->
      forall rl : RLStore,
      RATE_LIMIT_KV env_fallback = true -> rateLimitCheck mw_open r (st_rl s) = (false, rl) ->
      fst (fetch mw_open env_fallback r s)
        = Resp (mkResponse 429 (createSecurityHeaders mw_open) (BText "Too Many Requests") None)
      /\ st_log (snd (fetch mw_open env_fallback r s)) = st_log s)
  /\ (allowlist_enabled env_fallback && negb (validateAnthropicOrigin mw_open r) = false ->
      forall rl : RLStore,
      (if RATE_LIMIT_KV env_fallback then rateLimitCheck mw_open r (st_rl s)
       else (true, st_rl s)) = (true, rl) ->
      ((forall t, header_get (req_headers r) "Authorization" = Some ("Bearer " ++ t) ->
                  kv_tokens (st_kv s) !! t = None) ->
       fst (fetch mw_open env_fallback r s)
         = Resp (mkResponse 401 [("WWW-Authenticate", "Bearer")] (BText "Unauthorized") None))
      /\ (forall t (ti : TokenInfo) (ttl : Z),
            header_get (req_headers r) "Authorization" = Some ("Bearer " ++ t) ->
            kv_tokens (st_kv s) !! t = Some (ti, ttl) ->
            fst (fetch mw_open env_fallback r s)
            = Forward (mkProps true (ti_user_id ti) (ti_client_id ti)))).
Proof.
  intros r s.
  apply (C8_sse_gate mw_open env_fallback r s). left. reflexivity.
Defined.

End GateProofs.

(** ** The Client Registration Endpoint *)

Module RegisterProofs.
Import Broker Fixtures.
Local Open Scope string_scope.

(** C9: the stored registration puts the assigned id last
    ([{...body, client_id}]), but the response spreads the body after it
    ([{client_id, ...body}]): a body carrying its own [client_id] gets that
    value echoed back as its client id, while the registration is stored
    under the fresh one. *)
Lemma C9_response_client_id_overridden :
  let body := JObj [("client_id", JStr "my-client"); ("client_name", JStr "Demo")] in
  let r := mk_req "POST" "/register" [] [] None (Some body) in
  fst (fetch mw_open env_fallback r s_empty)
    = Resp (mkResponse 201 [("Content-Type", "application/json")]
              (BJson [("client_id", JStr "my-client"); ("client_name", JStr "Demo")]) None)
  /\ kv_clients (st_kv (snd (fetch mw_open env_fallback r s_empty))) !! "uuid-0"
     = Some ([("client_id", JStr "uuid-0"); ("client_name", JStr "Demo");
              ("created_at", JNum 0)], 2592000).
Proof. vm_compute. split; reflexivity. Qed.

End RegisterProofs.

(** ** The end-to-end scenario of the spec *)

Module Scenario.
Import Broker Fixtures.
Local Open Scope string_scope.

Example end_to_end :
  let s1 := snd (fetch mw_open env_fallback (authorize_req authorize_query) s_empty) in
  let s2 := snd (fetch mw_open env_fallback (callback_req "provcode" "uuid-0") s1) in
  let s3 := snd (fetch mw_open env_fallback
                   (token_req (token_form "uuid-1" rfc_verifier "abc")) s2) in
  url_get (match fst (fetch mw_open env_fallback (callback_req "provcode" "uuid-0") s1) with
           | Resp rsp => match location rsp with Some u => u | None => GITHUB_AUTH_URL end
           | _ => GITHUB_AUTH_URL
           end) "state" = Some "xyz"
  /\ outcome_status (fst (fetch mw_open env_fallback
                            (token_req (token_form "uuid-1" rfc_verifier "abc")) s2)) = Some 200
  /\ fst (fetch mw_open env_fallback
            (mk_req "GET" "/sse" [] [("Authorization", "Bearer uuid-2")] None None) s3)
     = Forward (mkProps true "github_user_provcode" (Some "abc"))
  /\ fst (fetch mw_open env_fallback (mk_req "GET" "/sse" [] [] None None) s3) = unauthorized.
Proof. vm_compute. repeat split. Qed.

End Scenario.

(* ------------------------------------------------------------------ *)
(** ** Further properties of the handlers *)

(** *** Shared lemmas *)

Module HandlerFacts.
Import Broker.
Local Open Scope string_scope.

Lemma obj_get_set_eq (o : list (string * Json)) (k : string) (v : Json) :
  obj_get (obj_set o k v) k = Some v.
Proof.
  induction o as [|[k' v'] r IH]; simpl; [rewrite String.eqb_refl; reflexivity|].
  destruct (String.eqb_spec k' k) as [->|Hk]; simpl; [rewrite String.eqb_refl; reflexivity|].
  apply String.eqb_neq in Hk. rewrite Hk. exact IH.
Qed.

Lemma obj_get_set_neq (o : list (string * Json)) (k k' : string) (v : Json) :
  k' <> k -> obj_get (obj_set o k v) k' = obj_get o k'.
Proof.
  intros Hne. assert (Hb : String.eqb k k' = false) by (apply String.eqb_neq; congruence).
  induction o as [|[k0 v0] r IH]; simpl; [rewrite Hb; reflexivity|].
  destruct (String.eqb_spec k0 k) as [->|Hk]; simpl; [rewrite Hb; reflexivity|].
  destruct (String.eqb k0 k'); [reflexivity | exact IH].
Qed.

(** spreading an object's fields over two objects that agree on [k] *)
Lemma spread_fields_congr (fs o o' : list (string * Json)) (k : string) :
  obj_get o k = obj_get o' k ->
  obj_get (fold_left (fun acc kv => obj_set acc (fst kv) (snd kv)) fs o) k
  = obj_get (fold_left (fun acc kv => obj_set acc (fst kv) (snd kv)) fs o') k.
Proof.
  revert o o'. induction fs as [|[k0 v0] r IH]; intros o o' H; simpl; [exact H|].
  apply IH. destruct (String.eqb_spec k0 k) as [->|Hk].
  - rewrite !obj_get_set_eq. reflexivity.
  - rewrite !obj_get_set_neq by congruence. exact H.
Qed.

(** a key none of the spread fields carries keeps its value *)
Lemma spread_fields_absent (fs o : list (string * Json)) (k : string) :
  ~ In k (map fst fs) ->
  obj_get (fold_left (fun acc kv => obj_set acc (fst kv) (snd kv)) fs o) k = obj_get o k.
Proof.
  revert o. induction fs as [|[k0 v0] r IH]; intros o Hn; simpl; [reflexivity|].
  simpl in Hn. rewrite IH by tauto. apply obj_get_set_neq. intros ->. tauto.
Qed.

Lemma fetch_nonsse (mw : Middleware) (env : Env) (r : Request) :
  req_path r <> "/sse" -> String.prefix "/sse/" (req_path r) = false ->
  fetch mw env r =
  if String.eqb (req_path r) "/.well-known/oauth-authorization-server" then ret (discovery r)
  else if String.eqb (req_path r) "/register" && String.eqb (req_method r) "POST" then register r
  else authorization_handler env r.
Proof.
  intros H1 H2. unfold fetch. apply String.eqb_neq in H1. rewrite H1, H2. reflexivity.
Qed.

Lemma fetch_register (mw : Middleware) (env : Env) (r : Request) :
  req_path r = "/register" -> req_method r = "POST" -> fetch mw env r = register r.
Proof. intros H1 H2. unfold fetch. rewrite H1, H2. reflexivity. Qed.

Lemma fetch_token (mw : Middleware) (env : Env) (r : Request) :
  req_path r = "/token" -> req_method r = "POST" -> fetch mw env r = token r.
Proof. intros H1 H2. unfold fetch, authorization_handler. rewrite H1, H2. reflexivity. Qed.

Lemma fetch_callback (mw : Middleware) (env : Env) (r : Request) :
  req_path r = "/github/callback" -> fetch mw env r = github_callback env r.
Proof. intros H1. unfold fetch, authorization_handler. rewrite H1. reflexivity. Qed.

Lemma fetch_discovery (mw : Middleware) (env : Env) (r : Request) :
  req_path r = "/.well-known/oauth-authorization-server" -> fetch mw env r = ret (discovery r).
Proof. intros H1. unfold fetch. rewrite H1. reflexivity. Qed.

End HandlerFacts.

Module DigestFacts.
Import Sha256.

Lemma round_length (st : list Z) (kw : Z * Z) : length (round st kw) = length st.
Proof.
  destruct st as [|a [|b [|c [|d [|e [|f [|g [|h [|i r]]]]]]]]]; reflexivity.
Qed.

Lemma rounds_length (l : list (Z * Z)) (st : list Z) :
  length (fold_left round l st) = length st.
Proof.
  revert st. induction l as [|kw l IH]; intros st; simpl; [reflexivity|].
  rewrite IH. apply round_length.
Qed.

Lemma compress_length (hs block : list Z) : length (compress hs block) = length hs.
Proof.
  unfold compress. rewrite length_map, length_combine, rounds_length. apply Nat.min_id.
Qed.

Lemma compress_all_length (bl : list (list Z)) (hs : list Z) :
  length (fold_left compress bl hs) = length hs.
Proof.
  revert hs. induction bl as [|b bl IH]; intros hs; simpl; [reflexivity|].
  rewrite IH. apply compress_length.
Qed.

Lemma be_words_bytes_length (l : list Z) : length (flat_map (be_bytes 4) l) = (4 * length l)%nat.
Proof.
  induction l as [|x l IH]; cbn [flat_map length]; [reflexivity|].
  rewrite length_app, IH. unfold be_bytes. rewrite length_map, length_seq. lia.
Qed.

(** every SHA-256 digest is 32 bytes long *)
Lemma digest_length (msg : list Z) : length (digest msg) = 32%nat.
Proof.
  unfold digest. rewrite be_words_bytes_length, compress_all_length.
  vm_compute. reflexivity.
Qed.

End DigestFacts.

Module Base64Facts.
Import Pkce.
Local Open Scope string_scope.

Lemma alpha_char_in (i : Z) :
  In (alpha_char url_alphabet i) (list_ascii_of_string url_alphabet).
Proof.
  unfold alpha_char.
  destruct (nth_in_or_default (Z.to_nat i) (list_ascii_of_string url_alphabet) "A"%char)
    as [H|H]; [exact H|]. rewrite H. left. reflexivity.
Qed.

Lemma base64url_length (bs : list Z) :
  String.length (base64url_nopad bs) = ((4 * length bs + 2) / 3)%nat.
Proof.
  remember (length bs) as n eqn:Hn. revert bs Hn.
  induction n as [n IH] using (well_founded_induction lt_wf). intros bs Hn.
  destruct bs as [|a [|b [|c r]]]; subst n; try reflexivity.
  cbn [base64url_nopad String.length length].
  rewrite (IH (length r)) by (simpl; lia + reflexivity).
  replace (4 * S (S (S (length r))) + 2)%nat with (4 * length r + 2 + 4 * 3)%nat by lia.
  rewrite Nat.div_add by lia. lia.
Qed.

Lemma base64url_chars (bs : list Z) :
  Forall (fun c => In c (list_ascii_of_string url_alphabet))
    (list_ascii_of_string (base64url_nopad bs)).
Proof.
  remember (length bs) as n eqn:Hn. revert bs Hn.
  induction n as [n IH] using (well_founded_induction lt_wf). intros bs Hn.
  destruct bs as [|a [|b [|c r]]]; subst n; cbn [base64url_nopad list_ascii_of_string];
    repeat first [apply Forall_nil | apply Forall_cons | split | apply alpha_char_in].
  apply (IH (length r)); [simpl; lia | reflexivity].
Qed.

End Base64Facts.

Module FlowFacts.
Import Broker.
Local Open Scope string_scope.

Ltac step := cbn -[Pkce.pkce_challenge String.eqb lookup insert delete].

Ltac unfold_token Hf Hg Hc Hc0 Hv Hv0 :=
  unfold token; rewrite Hf, Hg, Hc, Hv;
  apply String.eqb_neq in Hc0, Hv0;
  cbn [is_authorization_code truthy negb default from_option id];
  rewrite Hc0, Hv0; cbn [negb orb];
  unfold bind, ret, get_code, delete_code, kv_get, kv_delete, randomUUID, put_token, kv_put;
  rewrite String.eqb_refl; step.

(** a successful exchange answers with the first fresh id as access token
    and stores the token record under it *)
Lemma token_success (r : Request) (f : list (string * string)) (s : State)
  (c v : string) (a : AuthCode) (ttl : Z) :
  req_form r = Some f ->
  param_get f "grant_type" = Some "authorization_code" ->
  param_get f "code" = Some c -> c <> "" ->
  param_get f "code_verifier" = Some v -> v <> "" ->
  kv_codes (st_kv s) !! c = Some (a, ttl) ->
  outcome_status (fst (token r s)) = Some 200 ->
  fst (token r s) =
    json_resp 200 [("access_token", JStr (st_rng s (st_next s)));
                   ("token_type", JStr "Bearer");
                   ("expires_in", JNum 3600);
                   ("refresh_token", JStr (st_rng s (S (st_next s))))]
  /\ kv_tokens (st_kv (snd (token r s))) !! st_rng s (st_next s)
     = Some (mkTokenInfo (ac_user_id a) (ac_client_id a) (ac_github_code a) (req_now r), 3600).
Proof.
  intros Hf Hg Hc Hc0 Hv Hv0 Hl. unfold_token Hf Hg Hc Hc0 Hv Hv0.
  rewrite Hl. step.
  destruct (truthy (ac_code_challenge a) && _); step; [discriminate|].
  intros _. split; [reflexivity | apply lookup_insert_eq].
Qed.

(** the [/sse] gate, with neither guard active, forwards a known bearer token *)
Lemma gate_forward (mw : Middleware) (env : Env) (r : Request) (s : State)
  (t : string) (ti : TokenInfo) (ttl : Z) :
  (req_path r = "/sse" \/ String.prefix "/sse/" (req_path r) = true) ->
  allowlist_enabled env = false -> RATE_LIMIT_KV env = false ->
  header_get (req_headers r) "Authorization" = Some ("Bearer " ++ t) ->
  kv_tokens (st_kv s) !! t = Some (ti, ttl) ->
  fst (fetch mw env r s) = Forward (mkProps true (ti_user_id ti) (ti_client_id ti)).
Proof.
  intros Hpath Ha Hrl Hh Hl. rewrite (GateProofs.fetch_sse mw env r Hpath).
  unfold sse_gate. rewrite Ha, Hrl. cbn [andb negb]. unfold bind, ret. cbn [negb].
  rewrite Hh. cbn [truthy]. rewrite GateProofs.prefix_self, GateProofs.bearer_token.
  assert (Hne : String.eqb ("Bearer " ++ t) "" = false) by reflexivity.
  rewrite Hne. cbn [negb andb].
  unfold get_token, kv_get. cbn -[lookup]. rewrite Hl. reflexivity.
Qed.

Lemma github_redirect_params (env : Env) (r : Request) (gs : string) (u : URL) :
  github_redirect env r gs = redirect u ->
  url_base u = "https://github.com/login/oauth/authorize"
  /\ url_get u "client_id" = Some (GITHUB_CLIENT_ID env)
  /\ url_get u "redirect_uri" = Some (req_origin r ++ "/github/callback")
  /\ url_get u "scope" = Some "user:email"
  /\ url_get u "state" = Some gs.
Proof.
  unfold github_redirect, redirect. intros H. injection H as <-.
  unfold url_get, url_set. cbn [url_base url_params].
  split; [reflexivity|].
  split; [rewrite !ParamFacts.param_get_set_neq by discriminate;
          apply ParamFacts.param_get_set_eq|].
  split; [rewrite !ParamFacts.param_get_set_neq by discriminate;
          apply ParamFacts.param_get_set_eq|].
  split; [rewrite !ParamFacts.param_get_set_neq by discriminate;
          apply ParamFacts.param_get_set_eq|].
  apply ParamFacts.param_get_set_eq.
Qed.

End FlowFacts.

(** *** The Identity Callback Handler: the paths the claims leave out *)

Module CallbackExtra.
Import Broker.
Local Open Scope string_scope.

Ltac step := cbn -[String.eqb lookup insert delete].

Ltac unfold_callback Hc Hc0 Hs Hs0 :=
  apply String.eqb_neq in Hc0, Hs0;
  unfold github_callback; rewrite Hc, Hs; cbn [truthy negb default from_option id];
  rewrite Hc0, Hs0; cbn [negb orb];
  unfold bind, ret, get_session, delete_session, kv_get, kv_delete; step.

(** X1: a callback without a non-empty [code] or [state] is refused with
    400 "Missing code or state" before the store is touched. *)
Theorem X1_callback_missing_params (mw : Middleware) (env : Env) (r : Request) (s : State) :
  req_path r = "/github/callback" ->
  truthy (query_get r "code") = false \/ truthy (query_get r "state") = false ->
  fetch mw env r s = (text_resp 400 "Missing code or state", s).
Proof.
  intros Hp Hm. rewrite (HandlerFacts.fetch_callback mw env r Hp). unfold github_callback.
  destruct Hm as [H|H]; rewrite H; [reflexivity|]. rewrite orb_true_r. reflexivity.
Qed.

(** X2: a stored session that neither goes to the OAuth-provider helper
    nor carries [oauth_params] is deleted, and the callback answers 500
    "Invalid session data" without storing an authorization code. *)
Theorem X2_callback_invalid_session_data (env : Env) (r : Request) (s : State)
  (c st : string) (sess : PendingSession) (ttl : Z) :
  query_get r "code" = Some c -> c <> "" ->
  query_get r "state" = Some st -> st <> "" ->
  kv_states (st_kv s) !! st = Some (sess, ttl) ->
  (forall j p, ps_oauth_request sess = Some j -> OAUTH_PROVIDER env = Some p ->
               json_truthy j = false) ->
  ps_oauth_params sess = None ->
  fst (github_callback env r s) = text_resp 500 "Invalid session data"
  /\ kv_states (st_kv (snd (github_callback env r s))) !! st = None
  /\ kv_codes (st_kv (snd (github_callback env r s))) = kv_codes (st_kv s)
  /\ st_log (snd (github_callback env r s))
     = app (st_log s) [OGet ("github_state:" ++ st); ODelete ("github_state:" ++ st)].
Proof.
  intros Hc Hc0 Hs Hs0 Hl Hprov Hop. unfold_callback Hc Hc0 Hs Hs0.
  rewrite Hl. step. rewrite Hop.
  destruct (ps_oauth_request sess) as [j|] eqn:Hj;
    destruct (OAUTH_PROVIDER env) as [p|] eqn:Hp; step;
    try rewrite (Hprov j p eq_refl eq_refl); step;
    (split; [reflexivity | split; [apply lookup_delete_eq | split; [reflexivity|]]]);
    rewrite <- app_assoc; reflexivity.
Qed.

(** X3: when the session holds a (truthy) OAuth request and the
    OAuth-provider helper is bound, the callback always takes the helper's
    path, whether or not the session also has [oauth_params]: it deletes
    the session, calls [completeAuthorization] with the user id
    ["github_user_" ++] the first 8 characters of the GitHub code, stores no
    authorization code and draws no fresh id; it redirects (302) to the
    helper's [redirectTo] when that is a valid URL, and otherwise answers
    500 "Error completing authorization: ..."; "valid" is decided by the
    runtime's URL parser, which [Response.redirect] uses. *)
Theorem X3_callback_provider_path (env : Env) (r : Request) (s : State)
  (c st : string) (sess : PendingSession) (ttl : Z) (j : Json) (p : Provider) :
  query_get r "code" = Some c -> c <> "" ->
  query_get r "state" = Some st -> st <> "" ->
  kv_states (st_kv s) !! st = Some (sess, ttl) ->
  ps_oauth_request sess = Some j -> json_truthy j = true ->
  OAUTH_PROVIDER env = Some p ->
  kv_states (st_kv (snd (github_callback env r s))) !! st = None
  /\ kv_codes (st_kv (snd (github_callback env r s))) = kv_codes (st_kv s)
  /\ st_next (snd (github_callback env r s)) = st_next s
  /\ (forall (to : string) (u : URL),
        completeAuthorization p j ("github_user_" ++ substring 0 8 c) = inr to ->
        parseURL env to = Some u ->
        fst (github_callback env r s) = redirect u)
  /\ ((exists to, completeAuthorization p j ("github_user_" ++ substring 0 8 c) = inr to
                  /\ parseURL env to = None)
      \/ (exists e, completeAuthorization p j ("github_user_" ++ substring 0 8 c) = inl e) ->
      exists msg, fst (github_callback env r s)
                  = text_resp 500 ("Error completing authorization: " ++ msg)).
Proof.
  intros Hc Hc0 Hs Hs0 Hl Hj Hjt Hp. unfold_callback Hc Hc0 Hs Hs0.
  rewrite Hl. step. rewrite Hj, Hp, Hjt. unfold github_user_id.
  destruct (completeAuthorization p j ("github_user_" ++ substring 0 8 c)) as [e|to] eqn:Hca;
    step.
  - split; [apply lookup_delete_eq|]. split; [reflexivity|]. split; [reflexivity|].
    split; [intros to u H; discriminate|]. intros _. eexists; reflexivity.
  - destruct (parseURL env to) as [u|] eqn:Hu; step.
    + split; [apply lookup_delete_eq|]. split; [reflexivity|]. split; [reflexivity|].
      split; [intros to' u' H Hu'; injection H as <-; congruence|].
      intros [[to' [H Hu']]|[e H]]; [injection H as <-; congruence | discriminate].
    + split; [apply lookup_delete_eq|]. split; [reflexivity|]. split; [reflexivity|].
      split; [intros to' u' H Hu'; injection H as <-; congruence|].
      intros _. eexists; reflexivity.
Qed.

End CallbackExtra.

(** *** [/authorize]: the OAuth-provider path and the GitHub redirect *)

Module AuthorizeExtra.
Import Broker.
Local Open Scope string_scope.

Ltac step := cbn -[String.eqb lookup insert delete].

(** X4: with the OAuth-provider helper bound, a request the helper rejects
    is answered 500 "Error: <message>", and an empty [GITHUB_CLIENT_ID] gives
    500 "GitHub OAuth not configured", both without any store operation or
    fresh id; otherwise the parsed request alone is stored as the pending
    session under [github_state:<fresh id>] with TTL 3600, in one store
    operation. *)
Theorem X4_authorize_provider_path (env : Env) (r : Request) (s : State) (p : Provider) :
  OAUTH_PROVIDER env = Some p ->
  (forall msg, parseAuthRequest p r = inl msg ->
     authorize env r s = (text_resp 500 ("Error: " ++ msg), s))
  /\ (forall j, parseAuthRequest p r = inr j -> GITHUB_CLIENT_ID env = "" ->
      authorize env r s = (text_resp 500 "GitHub OAuth not configured", s))
  /\ (forall j, parseAuthRequest p r = inr j -> GITHUB_CLIENT_ID env <> "" ->
      kv_states (st_kv (snd (authorize env r s))) !! st_rng s (st_next s)
        = Some (mkPendingSession (Some j) None (req_now r), 3600)
      /\ st_log (snd (authorize env r s))
         = app (st_log s) [OPut ("github_state:" ++ st_rng s (st_next s)) 3600]).
Proof.
  intros Hp. unfold authorize. rewrite Hp. split; [|split].
  - intros msg H. rewrite H. reflexivity.
  - intros j H He. rewrite H, He. reflexivity.
  - intros j H He. rewrite H. apply String.eqb_neq in He. rewrite He.
    unfold bind, ret, randomUUID, put_session, kv_put. step.
    split; [apply lookup_insert_eq | reflexivity].
Qed.

(** X5: whenever [/authorize] redirects, on either path, the redirect goes
    to GitHub's authorize URL with [client_id] = [GITHUB_CLIENT_ID],
    [redirect_uri] = the broker's origin followed by [/github/callback],
    [scope] = [user:email], and a [state] that names the pending session
    just stored (TTL 3600). *)
Theorem X5_authorize_github_redirect (env : Env) (r : Request) (s : State) (u : URL) :
  fst (authorize env r s) = redirect u ->
  url_base u = "https://github.com/login/oauth/authorize"
  /\ url_get u "client_id" = Some (GITHUB_CLIENT_ID env)
  /\ url_get u "redirect_uri" = Some (req_origin r ++ "/github/callback")
  /\ url_get u "scope" = Some "user:email"
  /\ exists gs sess, url_get u "state" = Some gs
       /\ kv_states (st_kv (snd (authorize env r s))) !! gs = Some (sess, 3600).
Proof.
  unfold authorize.
  destruct (OAUTH_PROVIDER env) as [p|].
  - destruct (parseAuthRequest p r) as [msg|j]; [discriminate|].
    destruct (String.eqb (GITHUB_CLIENT_ID env) ""); [discriminate|].
    unfold bind, ret, randomUUID, put_session, kv_put. step. intros H.
    destruct (FlowFacts.github_redirect_params _ _ _ _ H) as (H1 & H2 & H3 & H4 & H5).
    repeat (split; [assumption|]). do 2 eexists. split; [exact H5 | apply lookup_insert_eq].
  - cbv zeta.
    destruct (negb (truthy _) || negb (truthy _) || negb (truthy _)); [discriminate|].
    unfold bind, ret, randomUUID, put_session, kv_put. step. intros H.
    destruct (FlowFacts.github_redirect_params _ _ _ _ H) as (H1 & H2 & H3 & H4 & H5).
    repeat (split; [assumption|]). do 2 eexists. split; [exact H5 | apply lookup_insert_eq].
Qed.

End AuthorizeExtra.

(** *** [/token]: the remaining paths, what it never touches, and the
    token it mints *)

Module TokenExtra.
Import Broker.
Local Open Scope string_scope.

Ltac step := cbn -[Pkce.pkce_challenge String.eqb lookup insert delete].

(** X6: when the request body cannot be read as form data, [POST /token]
    answers 500 with [{"error": "server_error"}] and touches nothing. *)
Theorem X6_token_unreadable_form (mw : Middleware) (env : Env) (r : Request) (s : State) :
  req_path r = "/token" -> req_method r = "POST" -> req_form r = None ->
  fetch mw env r s = (json_resp 500 [("error", JStr "server_error")], s).
Proof.
  intros Hp Hm Hf. rewrite (HandlerFacts.fetch_token mw env r Hp Hm). unfold token.
  rewrite Hf. reflexivity.
Qed.

(** X7: [/token] never changes pending sessions or client registrations,
    and an exchange that does not answer 200 stores no access token. *)
Theorem X7_token_footprint (r : Request) (s : State) :
  kv_states (st_kv (snd (token r s))) = kv_states (st_kv s)
  /\ kv_clients (st_kv (snd (token r s))) = kv_clients (st_kv s)
  /\ (outcome_status (fst (token r s)) <> Some 200 ->
      kv_tokens (st_kv (snd (token r s))) = kv_tokens (st_kv s)).
Proof.
  unfold token. destruct (req_form r) as [f|]; [|split; [|split]; reflexivity].
  destruct (negb (is_authorization_code _)); [split; [|split]; reflexivity|].
  destruct (negb (truthy _) || negb (truthy _)); [split; [|split]; reflexivity|].
  unfold bind, ret, get_code, delete_code, kv_get, kv_delete, randomUUID, put_token, kv_put.
  step. destruct (kv_codes (st_kv s) !! _) as [[a ttl]|]; step;
    [|split; [|split]; reflexivity].
  destruct (truthy (ac_code_challenge a) && _); step; [split; [|split]; reflexivity|].
  split; [|split]; [reflexivity | reflexivity | intros H; exfalso; apply H; reflexivity].
Qed.

(** X8: the access token returned by a successful exchange opens the
    [/sse] gate: presented as [Authorization: Bearer <token>] (with no
    allow-list and no rate limiter configured), it forwards the request with
    the user id and client id of the redeemed authorization code. *)
Theorem X8_token_opens_gate (r : Request) (f : list (string * string)) (s : State)
  (c v : string) (a : AuthCode) (ttl : Z) :
  req_form r = Some f ->
  param_get f "grant_type" = Some "authorization_code" ->
  param_get f "code" = Some c -> c <> "" ->
  param_get f "code_verifier" = Some v -> v <> "" ->
  kv_codes (st_kv s) !! c = Some (a, ttl) ->
  outcome_status (fst (token r s)) = Some 200 ->
  exists (t : string) (fs : list (string * Json)),
    fst (token r s) = json_resp 200 fs /\ obj_get fs "access_token" = Some (JStr t)
    /\ forall (mw : Middleware) (env : Env) (r2 : Request),
         (req_path r2 = "/sse" \/ String.prefix "/sse/" (req_path r2) = true) ->
         allowlist_enabled env = false -> RATE_LIMIT_KV env = false ->
         header_get (req_headers r2) "Authorization" = Some ("Bearer " ++ t) ->
         fst (fetch mw env r2 (snd (token r s)))
         = Forward (mkProps true (ac_user_id a) (ac_client_id a)).
Proof.
  intros Hf Hg Hc Hc0 Hv Hv0 Hl H200.
  destruct (FlowFacts.token_success r f s c v a ttl Hf Hg Hc Hc0 Hv Hv0 Hl H200) as [Hr Ht].
  do 2 eexists. split; [exact Hr|]. split; [reflexivity|].
  intros mw env r2 Hpath Ha Hrl Hh.
  exact (FlowFacts.gate_forward mw env r2 _ _ _ 3600 Hpath Ha Hrl Hh Ht).
Qed.

(** X9: the discovery document lists [refresh_token] among the supported
    grant types, yet [POST /token] answers every [refresh_token] grant with
    400 [unsupported_grant_type], touching nothing. *)
Theorem X9_refresh_grant_advertised_but_refused (mw : Middleware) (env : Env)
  (r1 r2 : Request) (s : State) (f : list (string * string)) :
  req_path r1 = "/.well-known/oauth-authorization-server" ->
  req_path r2 = "/token" -> req_method r2 = "POST" -> req_form r2 = Some f ->
  param_get f "grant_type" = Some "refresh_token" ->
  (exists fs, fetch mw env r1 s = (json_resp 200 fs, s)
     /\ obj_get fs "grant_types_supported"
        = Some (JArr [JStr "authorization_code"; JStr "refresh_token"]))
  /\ fetch mw env r2 s = (token_error "unsupported_grant_type" None, s).
Proof.
  intros Hp1 Hp2 Hm2 Hf Hg. split.
  - rewrite (HandlerFacts.fetch_discovery mw env r1 Hp1). eexists. split; reflexivity.
  - rewrite (HandlerFacts.fetch_token mw env r2 Hp2 Hm2). unfold token. rewrite Hf, Hg.
    reflexivity.
Qed.

End TokenExtra.

(** *** Routing *)

Module RoutingExtra.
Import Broker.
Local Open Scope string_scope.

(** X10: every request outside the served routes ([/sse] and [/sse/...],
    the discovery document, [POST /register], [/authorize],
    [/github/callback], [POST /token] and [/]) is answered 404 "Not Found"
    without touching the store; in particular a [/token] or [/register]
    request whose method is not [POST] is. *)
Theorem X10_unrouted_not_found (mw : Middleware) (env : Env) (r : Request) (s : State) :
  req_path r <> "/sse" -> String.prefix "/sse/" (req_path r) = false ->
  req_path r <> "/.well-known/oauth-authorization-server" ->
  req_path r <> "/authorize" -> req_path r <> "/github/callback" -> req_path r <> "/" ->
  (req_path r = "/register" \/ req_path r = "/token" -> req_method r <> "POST") ->
  fetch mw env r s = (text_resp 404 "Not Found", s).
Proof.
  intros H1 H2 H3 H4 H5 H6 H7. rewrite (HandlerFacts.fetch_nonsse mw env r H1 H2).
  apply String.eqb_neq in H3, H4, H5, H6. rewrite H3.
  assert (Hreg : String.eqb (req_path r) "/register" && String.eqb (req_method r) "POST" = false).
  { destruct (String.eqb_spec (req_path r) "/register") as [He|]; [|reflexivity].
    apply String.eqb_neq. auto. }
  assert (Htok : String.eqb (req_path r) "/token" && String.eqb (req_method r) "POST" = false).
  { destruct (String.eqb_spec (req_path r) "/token") as [He|]; [|reflexivity].
    apply String.eqb_neq. auto. }
  rewrite Hreg. unfold authorization_handler. rewrite H4, H5, Htok, H6. reflexivity.
Qed.

End RoutingExtra.

(** *** [POST /register] *)

Module RegisterExtra.
Import Broker.
Local Open Scope string_scope.

Ltac step := cbn -[String.eqb lookup insert delete obj_set spread].

(** X11: for every JSON body, registration stores one record under
    [client:<fresh id>] with TTL 30 days, in one store operation; in the
    record, [client_id] is the fresh id and [created_at] the current time
    whatever the body says, and every other key has the body's value. *)
Theorem X11_register_stored_record (mw : Middleware) (env : Env) (r : Request) (s : State)
  (body : Json) :
  req_path r = "/register" -> req_method r = "POST" -> req_json r = Some body ->
  st_log (snd (fetch mw env r s))
    = app (st_log s) [OPut ("client:" ++ st_rng s (st_next s)) (86400 * 30)]
  /\ exists rec,
       kv_clients (st_kv (snd (fetch mw env r s))) !! st_rng s (st_next s)
         = Some (rec, 86400 * 30)
       /\ obj_get rec "client_id" = Some (JStr (st_rng s (st_next s)))
       /\ obj_get rec "created_at" = Some (JNum (req_now r))
       /\ forall k, k <> "client_id" -> k <> "created_at" ->
          obj_get rec k = obj_get (spread [] body) k.
Proof.
  intros Hp Hm Hb. rewrite (HandlerFacts.fetch_register mw env r Hp Hm). unfold register.
  rewrite Hb. unfold bind, ret, randomUUID, put_client, kv_put. step.
  split; [reflexivity|]. eexists. split; [apply lookup_insert_eq|].
  split; [rewrite HandlerFacts.obj_get_set_neq by discriminate;
          apply HandlerFacts.obj_get_set_eq|].
  split; [apply HandlerFacts.obj_get_set_eq|].
  intros k Hk1 Hk2. rewrite !HandlerFacts.obj_get_set_neq by assumption. reflexivity.
Qed.

(** X12: when the JSON object sent to [/register] has no [client_id]
    field, the 201 response agrees with the stored record on every key
    except [created_at]; in particular its [client_id] is the id the
    registration is stored under. *)
Theorem X12_register_response_matches_record (mw : Middleware) (env : Env) (r : Request)
  (s : State) (fs : list (string * Json)) :
  req_path r = "/register" -> req_method r = "POST" -> req_json r = Some (JObj fs) ->
  ~ In "client_id" (map fst fs) ->
  exists rec resp,
    kv_clients (st_kv (snd (fetch mw env r s))) !! st_rng s (st_next s)
      = Some (rec, 86400 * 30)
    /\ fst (fetch mw env r s)
       = Resp (mkResponse 201 [("Content-Type", "application/json")] (BJson resp) None)
    /\ obj_get resp "client_id" = Some (JStr (st_rng s (st_next s)))
    /\ forall k, k <> "created_at" -> obj_get resp k = obj_get rec k.
Proof.
  intros Hp Hm Hb Hn. rewrite (HandlerFacts.fetch_register mw env r Hp Hm). unfold register.
  rewrite Hb. unfold bind, ret, randomUUID, put_client, kv_put. step.
  do 2 eexists. split; [apply lookup_insert_eq|]. split; [reflexivity|].
  unfold spread.
  assert (Hid : obj_get (fold_left (fun acc kv => obj_set acc (fst kv) (snd kv)) fs
                           [("client_id", JStr (st_rng s (st_next s)))]) "client_id"
                = Some (JStr (st_rng s (st_next s)))).
  { rewrite HandlerFacts.spread_fields_absent by exact Hn. reflexivity. }
  split; [exact Hid|].
  intros k Hk. destruct (String.eqb_spec k "client_id") as [->|Hc].
  - rewrite Hid, HandlerFacts.obj_get_set_neq by discriminate.
    symmetry. apply HandlerFacts.obj_get_set_eq.
  - rewrite !HandlerFacts.obj_get_set_neq by assumption.
    apply HandlerFacts.spread_fields_congr. cbn [obj_get]. apply String.eqb_neq in Hc.
    rewrite String.eqb_sym, Hc. reflexivity.
Qed.

(** X13: a [/register] body that is not valid JSON makes the handler
    throw, before any store operation and without drawing a fresh id. *)
Theorem X13_register_invalid_json (mw : Middleware) (env : Env) (r : Request) (s : State) :
  req_path r = "/register" -> req_method r = "POST" -> req_json r = None ->
  exists msg, fetch mw env r s = (Thrown msg, s).
Proof.
  intros Hp Hm Hb. rewrite (HandlerFacts.fetch_register mw env r Hp Hm). unfold register.
  rewrite Hb. eexists. reflexivity.
Qed.

End RegisterExtra.

(** *** Composition of [/authorize] and [/github/callback] *)

Module FlowExtra.
Import Broker.
Local Open Scope string_scope.

Ltac step := cbn -[String.eqb lookup insert delete].

(** X14: on the fallback path, the [state] that [/authorize] sends to
    GitHub leads back to the client's parameters: a callback carrying it
    (and a non-empty GitHub code) stores the next fresh id as an
    authorization code bound to the client id, redirect URI, PKCE challenge
    and method the client sent to [/authorize]; when the runtime's URL
    parser accepts that redirect URI, the callback redirects to the parsed
    URL with [code] set to that id, [state] set to the client's [state] when
    it is non-empty, and its base, fragment and other parameters kept; when
    the parser refuses it, the callback throws. *)
Theorem X14_authorize_then_callback (env : Env) (r r2 : Request) (s : State) (c : string) :
  OAUTH_PROVIDER env = None ->
  truthy (query_get r "response_type") && truthy (query_get r "client_id")
    && truthy (query_get r "redirect_uri") = true ->
  st_rng s (st_next s) <> "" ->
  query_get r2 "code" = Some c -> c <> "" ->
  query_get r2 "state" = Some (st_rng s (st_next s)) ->
  kv_codes (st_kv (snd (github_callback env r2 (snd (authorize env r s)))))
    !! st_rng s (S (st_next s))
  = Some (mkAuthCode (query_get r "client_id") (query_get r "redirect_uri")
            (query_get r "code_challenge") (query_get r "code_challenge_method")
            c (github_user_id c) (req_now r2), 600)
  /\ match parseURL env (default "null" (query_get r "redirect_uri")) with
     | Some u0 =>
         exists u, fst (github_callback env r2 (snd (authorize env r s))) = redirect u
           /\ url_base u = url_base u0 /\ url_hash u = url_hash u0
           /\ url_get u "code" = Some (st_rng s (S (st_next s)))
           /\ (truthy (query_get r "state") = true -> url_get u "state" = query_get r "state")
           /\ (truthy (query_get r "state") = false -> url_get u "state" = url_get u0 "state")
           /\ (forall k, k <> "code" -> k <> "state" -> url_get u k = url_get u0 k)
     | None => exists msg, fst (github_callback env r2 (snd (authorize env r s))) = Thrown msg
     end.
Proof.
  intros Hp Hok Hgs Hc Hc0 Hs.
  apply andb_prop in Hok as [Hok Hru]. apply andb_prop in Hok as [Hrt Hci].
  unfold authorize. rewrite Hp. cbv zeta. rewrite Hrt, Hci, Hru. cbn [negb orb].
  unfold bind at 1, randomUUID. cbn [st_rng st_next].
  unfold bind at 1, put_session, kv_put. cbn -[String.eqb lookup insert delete].
  apply String.eqb_neq in Hc0, Hgs.
  unfold github_callback. rewrite Hc, Hs. cbn [truthy negb default from_option id].
  rewrite Hc0, Hgs. cbn [negb orb].
  unfold bind, ret, get_session, delete_session, kv_get, kv_delete. step.
  rewrite lookup_insert_eq. step.
  destruct (parseURL env (default "null" (query_get r "redirect_uri"))) as [u|] eqn:Hu; step.
  - split; [apply lookup_insert_eq|].
    eexists. split; [reflexivity|].
    exact (CallbackProofs.manual_redirect_params u (st_rng s (S (st_next s)))
             (query_get r "state")).
  - split; [apply lookup_insert_eq | eexists; reflexivity].
Qed.

End FlowExtra.

(** *** The PKCE challenge *)

Module PkceExtra.
Import Pkce.
Local Open Scope string_scope.

(** X15: the challenge [/token] computes from any verifier is 43
    characters long and uses only the 64 base64url characters (letters,
    digits, [-] and [_]); in particular it never contains [+], [/] or
    [=]. *)
Theorem X15_challenge_shape (v : string) :
  String.length (pkce_challenge v) = 43%nat
  /\ Forall (fun c => In c (list_ascii_of_string url_alphabet))
       (list_ascii_of_string (pkce_challenge v)).
Proof.
  rewrite PkceFacts.pkce_challenge_spec. unfold spec_challenge. split.
  - rewrite Base64Facts.base64url_length, DigestFacts.digest_length. reflexivity.
  - apply Base64Facts.base64url_chars.
Qed.

End PkceExtra.

(** *** The [/sse] gate and the security flags *)

Module GateExtra.
Import Broker.
Local Open Scope string_scope.

(** X16: the [/sse] gate never writes to [OAUTH_KV] and never draws a
    fresh id: the store is left as it was, and the only store operation it
    may perform is a single read. *)
Theorem X16_gate_read_only (mw : Middleware) (env : Env) (r : Request) (s : State) :
  (req_path r = "/sse" \/ String.prefix "/sse/" (req_path r) = true) ->
  st_kv (snd (fetch mw env r s)) = st_kv s
  /\ st_next (snd (fetch mw env r s)) = st_next s
  /\ (st_log (snd (fetch mw env r s)) = st_log s
      \/ exists k, st_log (snd (fetch mw env r s)) = app (st_log s) [OGet k]).
Proof.
  intros Hpath. rewrite (GateProofs.fetch_sse mw env r Hpath). unfold sse_gate.
  destruct (allowlist_enabled env && negb (validateAnthropicOrigin mw r));
    [split; [|split; [|left]]; reflexivity|].
  unfold bind, ret.
  assert (Hrl : exists ok rl,
    (if RATE_LIMIT_KV env then rate_limit mw r else (fun s0 => (true, s0))) s
    = (ok, mkState (st_kv s) (st_log s) rl (st_rng s) (st_next s))).
  { destruct (RATE_LIMIT_KV env).
    - unfold rate_limit. destruct (rateLimitCheck mw r (st_rl s)) as [ok rl].
      exists ok, rl. reflexivity.
    - exists true, (st_rl s). destruct s; reflexivity. }
  destruct Hrl as (ok & rl & Hrl). unfold ret in Hrl. rewrite Hrl.
  destruct ok; cbn [negb]; [|split; [|split; [|left]]; reflexivity].
  destruct (header_get (req_headers r) "Authorization") as [h|];
    [|split; [|split; [|left]]; reflexivity].
  destruct (truthy (Some h) && String.prefix "Bearer " h);
    [|split; [|split; [|left]]; reflexivity].
  unfold get_token, kv_get. cbn -[lookup].
  destruct (kv_tokens (st_kv s) !! _);
    (split; [|split; [|right; eexists]]; reflexivity).
Qed.

(** X17: [ENABLE_IP_ALLOWLIST] turns the origin check on only when it is
    exactly ['true']: for any other value (or none) [validateAnthropicOrigin]
    is never consulted, and whatever it would answer the response and the
    resulting state are the same.  Likewise, without a [RATE_LIMIT_KV]
    binding [rateLimitCheck] is never consulted. *)
Theorem X17_security_flags (env : Env) (r : Request) (s : State) :
  (ENABLE_IP_ALLOWLIST env <> Some "true" ->
   forall v1 v2 rlc hs,
     fetch (mkMiddleware v1 rlc hs) env r s = fetch (mkMiddleware v2 rlc hs) env r s)
  /\ (RATE_LIMIT_KV env = false ->
      forall v rlc1 rlc2 hs,
        fetch (mkMiddleware v rlc1 hs) env r s = fetch (mkMiddleware v rlc2 hs) env r s).
Proof.
  split.
  - intros Hf v1 v2 rlc hs.
    assert (Ha : allowlist_enabled env = false).
    { unfold allowlist_enabled. destruct (ENABLE_IP_ALLOWLIST env) as [x|]; [|reflexivity].
      apply String.eqb_neq. congruence. }
    unfold fetch. destruct (_ || _); [|reflexivity].
    unfold sse_gate. rewrite Ha. reflexivity.
  - intros Hr v rlc1 rlc2 hs. unfold fetch. destruct (_ || _); [|reflexivity].
    unfold sse_gate. rewrite Hr. reflexivity.
Qed.

End GateExtra.

(** *** Instances of the properties above on concrete requests *)

Module ExtraWitnesses.
Import Broker Fixtures.
Local Open Scope string_scope.

Lemma X1_witness :
  fetch mw_open env_fallback
    (mk_req "GET" "/github/callback" [("state", "uuid-0")] [] None None) s_empty
  = (text_resp 400 "Missing code or state", s_empty).
Proof.
  apply (CallbackExtra.X1_callback_missing_params mw_open env_fallback
           (mk_req "GET" "/github/callback" [("state", "uuid-0")] [] None None) s_empty);
  [reflexivity | left; reflexivity].
Defined.

Lemma X2_witness :
  let s := s_session "st1" (mkPendingSession None None 0) in
  let r := callback_req "provcode" "st1" in
  fst (github_callback env_fallback r s) = text_resp 500 "Invalid session data"
  /\ kv_states (st_kv (snd (github_callback env_fallback r s))) !! "st1" = None
  /\ kv_codes (st_kv (snd (github_callback env_fallback r s))) = kv_codes (st_kv s)
  /\ st_log (snd (github_callback env_fallback r s))
     = app (st_log s) [OGet ("github_state:" ++ "st1"); ODelete ("github_state:" ++ "st1")].
Proof.
  intros s r.
  apply (CallbackExtra.X2_callback_invalid_session_data env_fallback r s "provcode" "st1"
           (mkPendingSession None None 0) 3600);
  (reflexivity || discriminate).
Defined.

Lemma X3_witness :
  let p := mkProvider (fun _ => inr (JObj [])) (fun _ _ => inr "https://client.example/cb") in
  let s := s_session "st1" (mkPendingSession (Some (JObj [])) None 0) in
  let r := callback_req "provcode" "st1" in
  kv_states (st_kv (snd (github_callback env_provider r s))) !! "st1" = None
  /\ kv_codes (st_kv (snd (github_callback env_provider r s))) = kv_codes (st_kv s)
  /\ st_next (snd (github_callback env_provider r s)) = st_next s
  /\ (forall (to : string) (u : URL),
        completeAuthorization p (JObj []) ("github_user_" ++ substring 0 8 "provcode") = inr to ->
        parseURL env_provider to = Some u ->
        fst (github_callback env_provider r s) = redirect u)
  /\ ((exists to, completeAuthorization p (JObj []) ("github_user_" ++ substring 0 8 "provcode")
                  = inr to /\ parseURL env_provider to = None)
      \/ (exists e, completeAuthorization p (JObj []) ("github_user_" ++ substring 0 8 "provcode")
                    = inl e) ->
      exists msg, fst (github_callback env_provider r s)
                  = text_resp 500 ("Error completing authorization: " ++ msg)).
Proof.
  intros p s r.
  apply (CallbackExtra.X3_callback_provider_path env_provider r s "provcode" "st1"
           (mkPendingSession (Some (JObj [])) None 0) 3600 (JObj []) p);
  (reflexivity || discriminate).
Defined.

Lemma X4_witness :
  let p := mkProvider (fun _ => inr (JObj [])) (fun _ _ => inr "https://client.example/cb") in
  let r := authorize_req [("response_type", "code")] in
  (forall msg, parseAuthRequest p r = inl msg ->
     authorize env_provider r s_empty = (text_resp 500 ("Error: " ++ msg), s_empty))
  /\ (forall j, parseAuthRequest p r = inr j -> GITHUB_CLIENT_ID env_provider = "" ->
      authorize env_provider r s_empty
      = (text_resp 500 "GitHub OAuth not configured", s_empty))
  /\ (forall j, parseAuthRequest p r = inr j -> GITHUB_CLIENT_ID env_provider <> "" ->
      kv_states (st_kv (snd (authorize env_provider r s_empty))) !! "uuid-0"
        = Some (mkPendingSession (Some j) None (req_now r), 3600)
      /\ st_log (snd (authorize env_provider r s_empty))
         = app [] [OPut ("github_state:" ++ "uuid-0") 3600]).
Proof.
  intros p r. apply (AuthorizeExtra.X4_authorize_provider_path env_provider r s_empty p).
  reflexivity.
Defined.

Lemma X5_witness :
  let u := location_of (fst (authorize env_fallback (authorize_req authorize_query) s_empty)) in
  url_base u = "https://github.com/login/oauth/authorize"
  /\ url_get u "client_id" = Some (GITHUB_CLIENT_ID env_fallback)
  /\ url_get u "redirect_uri"
     = Some (req_origin (authorize_req authorize_query) ++ "/github/callback")
  /\ url_get u "scope" = Some "user:email"
  /\ exists gs sess, url_get u "state" = Some gs
       /\ kv_states (st_kv (snd (authorize env_fallback (authorize_req authorize_query)
                                   s_empty))) !! gs = Some (sess, 3600).
Proof.
  intros u. apply (AuthorizeExtra.X5_authorize_github_redirect env_fallback
                     (authorize_req authorize_query) s_empty u).
  vm_compute. reflexivity.
Defined.

Lemma X6_witness :
  fetch mw_open env_fallback (mk_req "POST" "/token" [] [] None None) s_empty
  = (json_resp 500 [("error", JStr "server_error")], s_empty).
Proof.
  apply (TokenExtra.X6_token_unreadable_form mw_open env_fallback
           (mk_req "POST" "/token" [] [] None None) s_empty); reflexivity.
Defined.

Lemma X8_witness :
  let r := token_req (token_form "c1" rfc_verifier "abc") in
  let s := s_code "c1" (code_rec "abc" (Some rfc_challenge) (Some "S256")) in
  exists (t : string) (fs : list (string * Json)),
    fst (token r s) = json_resp 200 fs /\ obj_get fs "access_token" = Some (JStr t)
    /\ forall (mw : Middleware) (env : Env) (r2 : Request),
         (req_path r2 = "/sse" \/ String.prefix "/sse/" (req_path r2) = true) ->
         allowlist_enabled env = false -> RATE_LIMIT_KV env = false ->
         header_get (req_headers r2) "Authorization" = Some ("Bearer " ++ t) ->
         fst (fetch mw env r2 (snd (token r s)))
         = Forward (mkProps true (ac_user_id (code_rec "abc" (Some rfc_challenge) (Some "S256")))
                      (ac_client_id (code_rec "abc" (Some rfc_challenge) (Some "S256")))).
Proof.
  intros r s.
  apply (TokenExtra.X8_token_opens_gate r (token_form "c1" rfc_verifier "abc") s "c1"
           rfc_verifier (code_rec "abc" (Some rfc_challenge) (Some "S256")) 600);
  (discriminate || (vm_compute; reflexivity)).
Defined.

Lemma X9_witness :
  let r1 := mk_req "GET" "/.well-known/oauth-authorization-server" [] [] None None in
  let r2 := token_req [("grant_type", "refresh_token"); ("refresh_token", "uuid-1")] in
  (exists fs, fetch mw_open env_fallback r1 s_empty = (json_resp 200 fs, s_empty)
     /\ obj_get fs "grant_types_supported"
        = Some (JArr [JStr "authorization_code"; JStr "refresh_token"]))
  /\ fetch mw_open env_fallback r2 s_empty
     = (token_error "unsupported_grant_type" None, s_empty).
Proof.
  intros r1 r2.
  apply (TokenExtra.X9_refresh_grant_advertised_but_refused mw_open env_fallback r1 r2 s_empty
           [("grant_type", "refresh_token"); ("refresh_token", "uuid-1")]); reflexivity.
Defined.

Lemma X10_witness :
  fetch mw_open env_fallback (mk_req "GET" "/token" [] [] None None) s_empty
  = (text_resp 404 "Not Found", s_empty).
Proof.
  apply (RoutingExtra.X10_unrouted_not_found mw_open env_fallback
           (mk_req "GET" "/token" [] [] None None) s_empty);
  (reflexivity || discriminate).
Defined.

Lemma X11_witness :
  let body := JObj [("client_id", JStr "my-client"); ("client_name", JStr "Demo")] in
  let r := mk_req "POST" "/register" [] [] None (Some body) in
  st_log (snd (fetch mw_open env_fallback r s_empty))
    = app [] [OPut ("client:" ++ "uuid-0") (86400 * 30)]
  /\ exists rec,
       kv_clients (st_kv (snd (fetch mw_open env_fallback r s_empty))) !! "uuid-0"
         = Some (rec, 86400 * 30)
       /\ obj_get rec "client_id" = Some (JStr "uuid-0")
       /\ obj_get rec "created_at" = Some (JNum (req_now r))
       /\ forall k, k <> "client_id" -> k <> "created_at" ->
          obj_get rec k = obj_get (spread [] body) k.
Proof.
  intros body r.
  apply (RegisterExtra.X11_register_stored_record mw_open env_fallback r s_empty body);
  reflexivity.
Defined.

Lemma X12_witness :
  let r := mk_req "POST" "/register" [] [] None (Some (JObj [("client_name", JStr "Demo")])) in
  exists rec resp,
    kv_clients (st_kv (snd (fetch mw_open env_fallback r s_empty))) !! "uuid-0"
      = Some (rec, 86400 * 30)
    /\ fst (fetch mw_open env_fallback r s_empty)
       = Resp (mkResponse 201 [("Content-Type", "application/json")] (BJson resp) None)
    /\ obj_get resp "client_id" = Some (JStr "uuid-0")
    /\ forall k, k <> "created_at" -> obj_get resp k = obj_get rec k.
Proof.
  intros r.
  apply (RegisterExtra.X12_register_response_matches_record mw_open env_fallback r s_empty
           [("client_name", JStr "Demo")]); try reflexivity.
  intros [H|H]; [discriminate | exact H].
Defined.

Lemma X13_witness :
  exists msg, fetch mw_open env_fallback (mk_req "POST" "/register" [] [] None None) s_empty
              = (Thrown msg, s_empty).
Proof.
  apply (RegisterExtra.X13_register_invalid_json mw_open env_fallback
           (mk_req "POST" "/register" [] [] None None) s_empty); reflexivity.
Defined.

Lemma X14_witness :
  let r := authorize_req authorize_query in
  let r2 := callback_req "provcode" "uuid-0" in
  kv_codes (st_kv (snd (github_callback env_fallback r2 (snd (authorize env_fallback r s_empty)))))
    !! "uuid-1"
  = Some (mkAuthCode (query_get r "client_id") (query_get r "redirect_uri")
            (query_get r "code_challenge") (query_get r "code_challenge_method")
            "provcode" (github_user_id "provcode") (req_now r2), 600)
  /\ match parseURL env_fallback (default "null" (query_get r "redirect_uri")) with
     | Some u0 =>
         exists u, fst (github_callback env_fallback r2 (snd (authorize env_fallback r s_empty)))
                   = redirect u
           /\ url_base u = url_base u0 /\ url_hash u = url_hash u0
           /\ url_get u "code" = Some "uuid-1"
           /\ (truthy (query_get r "state") = true -> url_get u "state" = query_get r "state")
           /\ (truthy (query_get r "state") = false -> url_get u "state" = url_get u0 "state")
           /\ (forall k, k <> "code" -> k <> "state" -> url_get u k = url_get u0 k)
     | None => exists msg, fst (github_callback env_fallback r2
                                  (snd (authorize env_fallback r s_empty))) = Thrown msg
     end.
Proof.
  intros r r2.
  apply (FlowExtra.X14_authorize_then_callback env_fallback r r2 s_empty "provcode");
  (reflexivity || discriminate).
Defined.

Lemma X16_witness :
  let r := mk_req "GET" "/sse" [] [("Authorization", "Bearer t")] None None in
  st_kv (snd (fetch mw_open env_fallback r s_empty)) = st_kv s_empty
  /\ st_next (snd (fetch mw_open env_fallback r s_empty)) = st_next s_empty
  /\ (st_log (snd (fetch mw_open env_fallback r s_empty)) = st_log s_empty
      \/ exists k, st_log (snd (fetch mw_open env_fallback r s_empty))
                   = app (st_log s_empty) [OGet k]).
Proof.
  intros r. apply (GateExtra.X16_gate_read_only mw_open env_fallback r s_empty).
  left. reflexivity.
Defined.

Lemma X17_witness :
  let r := mk_req "GET" "/sse" [] [] None None in
  (ENABLE_IP_ALLOWLIST env_fallback <> Some "true" ->
   forall v1 v2 rlc hs,
     fetch (mkMiddleware v1 rlc hs) env_fallback r s_empty
     = fetch (mkMiddleware v2 rlc hs) env_fallback r s_empty)
  /\ (RATE_LIMIT_KV env_fallback = false ->
      forall v rlc1 rlc2 hs,
        fetch (mkMiddleware v rlc1 hs) env_fallback r s_empty
        = fetch (mkMiddleware v rlc2 hs) env_fallback r s_empty).
Proof. intros r. apply (GateExtra.X17_security_flags env_fallback r s_empty). Defined.

End ExtraWitnesses.
